(** * PrepForge-Web: the retrying request client and the interview page

    A shallow embedding of [src/lib/fetchWithRetry.ts]: [fetchWithRetry]
    and [fetchJSON] (lines 1-87), and the [Home] component of the
    interview page that follows them there (lines 89-888: its state, its
    handlers and the controls that invoke them), followed by the
    properties proved about them.  Line numbers are those of that file.
    The updates of the saved question sets in
    [src/components/BookmarkManager.tsx] come after the page.

    Numbers are [Z] (the code only uses integers: attempt counters,
    milliseconds, status codes, indices, seconds); strings are [string],
    read as sequences of code units below 256. *)

From Stdlib Require Import ZArith String Ascii List Bool Lia DecimalString.
From stdpp Require Import base list strings.
Import ListNotations.

Local Open Scope string_scope.
Local Open Scope list_scope.
Local Open Scope Z_scope.

Set Warnings "-register-all".

(** ** The fragment of JavaScript the code relies on *)

Module Js.

(** Values a parsed response body can hold, and [undefined], which
    reading an absent property yields.  Numbers are the integers, whose
    [String(n)] is the decimal numeral. *)
Inductive value : Type :=
| Undefined
| Null
| Bool (b : bool)
| Num (n : Z)
| Str (s : string)
| Arr (items : list value)
| Obj (fields : list (string * value)).

(** ToBoolean. *)
Definition truthy (v : value) : bool :=
  match v with
  | Undefined | Null => false
  | Bool b => b
  | Num n => negb (n =? 0)
  | Str s => negb (String.eqb s "")
  | Arr _ | Obj _ => true
  end.

(** [a || b] on strings: the empty string is the only falsy one. *)
Definition orStr (a b : string) : string :=
  if String.eqb a "" then b else a.

(** [a || b] where [a] may be [undefined]. *)
Definition orOpt (a : option string) (b : string) : string :=
  match a with
  | Some s => orStr s b
  | None => b
  end.

(** The decimal numeral of an integer, as a template literal prints it. *)
Definition decimal (n : Z) : string := NilZero.string_of_int (Z.to_int n).

(** ToString, as [new Error(v)] applies it to its argument.  An array
    joins its items with commas, [null] and [undefined] items printing
    as nothing. *)
Fixpoint toString (v : value) : string :=
  match v with
  | Undefined => "undefined"
  | Null => "null"
  | Bool true => "true"
  | Bool false => "false"
  | Num n => decimal n
  | Str s => s
  | Arr items =>
      String.concat ","
        (List.map (fun x => match x with
                            | Undefined | Null => ""
                            | _ => toString x
                            end) items)
  | Obj _ => "[object Object]"
  end.

Fixpoint assoc (key : string) (fields : list (string * value)) : value :=
  match fields with
  | [] => Undefined
  | (k, v) :: rest => if String.eqb k key then v else assoc key rest
  end.

(** [v.key] for the keys the code reads ([error], [message]), which no
    prototype defines: [None] is the TypeError that reading a property
    of [null] or [undefined] throws. *)
Definition get (v : value) (key : string) : option value :=
  match v with
  | Undefined | Null => None
  | Obj fields => Some (assoc key fields)
  | Bool _ | Num _ | Str _ | Arr _ => Some Undefined
  end.

(** White space that [String.prototype.trim] strips, among the code
    units below 256: TAB, LF, VT, FF, CR, SP and NBSP. *)
Definition isWhiteSpace (c : ascii) : bool :=
  let n := nat_of_ascii c in
  ((9 <=? n)%nat && (n <=? 13)%nat) || (n =? 32)%nat || (n =? 160)%nat.

Fixpoint trimStart (s : string) : string :=
  match s with
  | EmptyString => EmptyString
  | String c rest => if isWhiteSpace c then trimStart rest else s
  end.

Fixpoint trimEnd (s : string) : string :=
  match s with
  | EmptyString => EmptyString
  | String c rest =>
      match trimEnd rest with
      | EmptyString => if isWhiteSpace c then EmptyString else String c EmptyString
      | kept => String c kept
      end
  end.

Definition trim (s : string) : string := trimEnd (trimStart s).

(** [!s.trim()]. *)
Definition blank (s : string) : bool := String.eqb (trim s) "".

(** [xs[i]], [undefined] out of range. *)
Definition index {A : Type} (xs : list A) (i : Z) : option A :=
  if i <? 0 then None else xs !! Z.to_nat i.

End Js.

(** ** src/lib/fetchWithRetry.ts *)

Module FetchWithRetry.

(** The part of a [Response] the code reads: [status], and what
    [response.json()] settles to ([None]: it rejects, the body is not
    JSON). *)
Record Response : Type := { status : Z; json : option Js.value }.

(** [response.ok], which the platform defines as a status in 200..299. *)
Definition ok (r : Response) : bool :=
  (200 <=? status r) && (status r <=? 299).

Record Error : Type := { name : string; message : string }.

(** What [await fetch(...)] gives: a response, or a thrown error. *)
Inductive Settled : Type :=
| Resolves (response : Response)
| Rejects (error : Error).

(** What the network does with one call: it settles after [ms]
    milliseconds, or never. *)
Inductive Wire : Type :=
| Arrives (ms : Z) (s : Settled)
| Silent.

(** The rejection of a [fetch] whose signal was aborted.  Only its name
    is read; the text is the engine's. *)
Definition abortError : Error :=
  {| name := "AbortError"; message := "signal is aborted without reason" |}.

(** Lines 23-31: the call races a timer of [timeout] milliseconds that
    aborts it.  A call that settles before the timer fires wins. *)
Definition awaitFetch (timeout : Z) (w : Wire) : Settled :=
  match w with
  | Arrives ms s => if ms <? timeout then s else Rejects abortError
  | Silent => Rejects abortError
  end.

Record FetchWithRetryOptions : Type :=
  { retries : option Z; retryDelay : option Z; timeout : option Z }.

Definition orDefault (o : option Z) (d : Z) : Z :=
  match o with Some v => v | None => d end.

(** What the function does that can be seen from outside. *)
Inductive Event : Type :=
| Fetch
| Warn (args : list string)
| Sleep (ms : Z).

(** How the returned promise settles: [Throws m] is
    [throw new Error(m)]. *)
Inductive Completion : Type :=
| Returns (response : Response)
| Throws (message : string).

Definition timeoutMessage : string :=
  "Request timeout. The server might be waking up (this can take up to 60 seconds on free tier). Please try again.".

Definition networkMessage : string :=
  "Network error. Please check your connection or try again in a moment.".

Section Loop.

(** [net i] is what the network does with the call of round [i]. *)
Variable net : nat -> Wire.
Variables retries_ retryDelay_ timeout_ : Z.

Definition warnStatus (response : Response) : Event :=
  Warn ["Fetch failed (" +:+ Js.decimal (status response) +:+ "), retrying in "
          +:+ Js.decimal retryDelay_ +:+ "ms..."].

Definition warnError (error : Error) : Event :=
  Warn ["Fetch error, retrying in " +:+ Js.decimal retryDelay_ +:+ "ms...";
        message error].

(** Lines 20-69.  The loop [for (let i = 0; i <= retries; i++)] runs
    its body for [i = 0, ..., retries]; [rounds] counts the rounds
    that are left, so that [rounds + i = retries + 1]. *)
Fixpoint loop (rounds : nat) (i : nat) (lastError : option Error)
  : Completion * list Event :=
  match rounds with
  | O => (Throws (Js.orOpt (message <$> lastError) networkMessage), [])
  | S rounds' =>
      match awaitFetch timeout_ (net i) with
      | Resolves response =>
          if ok response || ((400 <=? status response) && (status response <? 500))
          then (Returns response, [Fetch])
          else if Z.of_nat i <? retries_
          then
            let '(c, tr) := loop rounds' (S i) lastError in
            (c, Fetch :: warnStatus response
                  :: Sleep (retryDelay_ * (Z.of_nat i + 1)) :: tr)
          else (Returns response, [Fetch])
      | Rejects error =>
          if String.eqb (name error) "AbortError"
          then (Throws timeoutMessage, [Fetch])
          else if Z.of_nat i <? retries_
          then
            let '(c, tr) := loop rounds' (S i) (Some error) in
            (c, Fetch :: warnError error
                  :: Sleep (retryDelay_ * (Z.of_nat i + 1)) :: tr)
          else
            let '(c, tr) := loop rounds' (S i) (Some error) in
            (c, Fetch :: tr)
      end
  end.

End Loop.

(** Lines 11-16: the options with their defaults. *)
Definition retriesOf (options : FetchWithRetryOptions) : Z :=
  orDefault (retries options) 3.
Definition retryDelayOf (options : FetchWithRetryOptions) : Z :=
  orDefault (retryDelay options) 1000.
Definition timeoutOf (options : FetchWithRetryOptions) : Z :=
  orDefault (timeout options) 60000.

Definition fetchWithRetry (net : nat -> Wire) (options : FetchWithRetryOptions)
  : Completion * list Event :=
  loop net (retriesOf options) (retryDelayOf options) (timeoutOf options)
    (Z.to_nat (retriesOf options + 1)) 0 None.

(** What the call of round [i] gives the function. *)
Definition attempt (net : nat -> Wire) (options : FetchWithRetryOptions)
    (i : nat) : Settled :=
  awaitFetch (timeoutOf options) (net i).

(** How the promise of [fetchJSON] settles.  [Fails m] is
    [throw new Error(m)]; the two others are errors of the engine, whose
    texts are its own. *)
Inductive Decoded : Type :=
| Gives (data : Js.value)
| Fails (message : string)
| FailsTypeError
| FailsSyntaxError.

(** Lines 73-87. *)
Definition fetchJSON (net : nat -> Wire) (options : FetchWithRetryOptions)
  : Decoded * list Event :=
  let '(c, tr) := fetchWithRetry net options in
  match c with
  | Throws m => (Fails m, tr)
  | Returns response =>
      if negb (ok response)
      then
        let errorData :=
          match json response with Some v => v | None => Js.Obj [] end in
        match Js.get errorData "error" with
        | None => (FailsTypeError, tr)
        | Some e =>
            if Js.truthy e then (Fails (Js.toString e), tr)
            else
              match Js.get errorData "message" with
              | None => (FailsTypeError, tr)
              | Some m =>
                  if Js.truthy m then (Fails (Js.toString m), tr)
                  else (Fails ("HTTP error! status: " +:+ Js.decimal (status response)), tr)
              end
        end
      else
        match json response with
        | Some v => (Gives v, tr)
        | None => (FailsSyntaxError, tr)
        end
  end.

(** Observations on a trace. *)
Fixpoint fetches (tr : list Event) : nat :=
  match tr with
  | [] => O
  | Fetch :: rest => S (fetches rest)
  | _ :: rest => fetches rest
  end.

Fixpoint sleeps (tr : list Event) : list Z :=
  match tr with
  | [] => []
  | Sleep ms :: rest => ms :: sleeps rest
  | _ :: rest => sleeps rest
  end.

Definition totalDelay (tr : list Event) : Z := fold_right Z.add 0 (sleeps tr).

(** The trace without what goes to the console. *)
Fixpoint quiet (tr : list Event) : list Event :=
  match tr with
  | [] => []
  | Warn _ :: rest => quiet rest
  | e :: rest => e :: quiet rest
  end.

(** [k] rounds from round [i] on, each a call and then the wait of
    line 41 (or 59). *)
Definition backoff (retryDelay : Z) (i k : nat) : list Event :=
  flat_map (fun j => [Fetch; Sleep (retryDelay * (Z.of_nat j + 1))]) (seq i k).

(** The outcomes after which the loop goes on while rounds are left: a
    response that line 34 does not return, an error that line 50 does
    not turn into the timeout. *)
Definition retried (y : Settled) : bool :=
  match y with
  | Resolves response =>
      negb (ok response || ((400 <=? status response) && (status response <? 500)))
  | Rejects error => negb (String.eqb (name error) "AbortError")
  end.

(** A 5xx response, or a failure of the network. *)
Definition failing (y : Settled) : Prop :=
  match y with
  | Resolves response => 500 <= status response <= 599
  | Rejects error => name error <> "AbortError"
  end.

(** The call did not settle within the time allowed. *)
Definition exceeds (timeout : Z) (w : Wire) : Prop :=
  match w with
  | Arrives ms _ => timeout < ms
  | Silent => True
  end.

(** The text of the error for a response that is not [ok], in the
    order the documentation gives: the [error] field of the parsed body
    when it is there and truthy, else its [message] field when it is
    there and truthy, else the status line. *)
Definition preferredMessage (body : option Js.value) (status : Z) : string :=
  let field key :=
    match body with
    | Some (Js.Obj fields) => Js.assoc key fields
    | _ => Js.Undefined
    end in
  if Js.truthy (field "error") then Js.toString (field "error")
  else if Js.truthy (field "message") then Js.toString (field "message")
  else "HTTP error! status: " +:+ Js.decimal status.

(** Round [k] is the last thing the function does: [k] rounds with
    their waits, then one call, and nothing after it. *)
Definition endsAtRound (options : FetchWithRetryOptions) (k : nat)
    (tr : list Event) : Prop :=
  quiet tr = backoff (retryDelayOf options) 0 k ++ [Fetch].

(** The promise settles with the outcome [y] itself: the response, or
    an error of the same message. *)
Definition settlesWith (c : Completion) (y : Settled) : Prop :=
  match y with
  | Resolves response => c = Returns response
  | Rejects error => c = Throws (message error)
  end.

End FetchWithRetry.

(** ** Inputs used in the examples *)

Module Inputs.
Import FetchWithRetry.

Definition defaults : FetchWithRetryOptions :=
  {| retries := None; retryDelay := None; timeout := None |}.

Definition once : FetchWithRetryOptions :=
  {| retries := Some 0; retryDelay := None; timeout := None |}.

Definition r200 : Response :=
  {| status := 200; json := Some (Js.Obj [("questions", Js.Arr [])]) |}.
Definition r304 : Response := {| status := 304; json := None |}.
Definition r404 : Response :=
  {| status := 404; json := Some (Js.Obj [("message", Js.Str "Not found")]) |}.
Definition r503 : Response := {| status := 503; json := None |}.
Definition r404null : Response := {| status := 404; json := Some Js.Null |}.

Definition always (r : Response) : nat -> Wire :=
  fun _ => Arrives 120 (Resolves r).

(** A first reply, then [r200] for good. *)
Definition thenOk (r : Response) : nat -> Wire :=
  fun i => match i with
           | O => Arrives 120 (Resolves r)
           | S _ => Arrives 120 (Resolves r200)
           end.

(** A network on which every call fails with an error without text. *)
Definition unplugged : nat -> Wire :=
  fun _ => Arrives 5 (Rejects {| name := "TypeError"; message := "" |}).

(** A 503, then a backend that answers after 75 seconds. *)
Definition asleep : nat -> Wire :=
  fun i => match i with
           | O => Arrives 120 (Resolves r503)
           | S _ => Arrives 75000 (Resolves r200)
           end.

End Inputs.

(** ** The interview page: the [Home] component *)

Module Page.

Inductive QuestionType : Type := behavioral | technical | situational.
Inductive Difficulty : Type := easy | medium | hard.
Inductive QuestionTypeChoice : Type := only (t : QuestionType) | all.

(** [interface Question]; the prefix keeps its fields apart from the
    state variables of the same names. *)
Record Question : Type :=
  { q_id : string; q_question : string; q_type : QuestionType;
    q_difficulty : Difficulty; q_category : string }.

(** [currentStep]: "input" | "questions" | "mock" | "complete". *)
Inductive Step : Type := Input | Questions | Mock | Complete.

(** [session.user] of next-auth; each field may be absent. *)
Record User : Type :=
  { email : option string; name : option string; image : option string }.

(** The state variables of the component (lines 116-141), one field per
    [useState].  [ticking] stands for the interval of lines 145-148:
    whether one is live. *)
Record State : Type :=
  { jobRole : string;
    company : string;
    difficulty : Difficulty;
    seniority : string;
    numberOfQuestions : Z;
    questionType : QuestionTypeChoice;
    questions : list Question;
    isLoading : bool;
    error : string;
    currentStep : Step;
    savedQuestionSetId : option string;
    currentQuestionIndex : Z;
    currentAnswer : string;
    feedback : string;
    isSubmittingAnswer : bool;
    showFeedback : bool;
    followUpQuestion : string;
    isFetchingFollowUp : bool;
    timer : Z;
    ticking : bool }.

(** The setters. *)
Definition setJobRole (v : string) (s : State) : State :=
  {| jobRole := v; company := company s; difficulty := difficulty s;
     seniority := seniority s; numberOfQuestions := numberOfQuestions s;
     questionType := questionType s; questions := questions s;
     isLoading := isLoading s; error := error s;
     currentStep := currentStep s;
     savedQuestionSetId := savedQuestionSetId s;
     currentQuestionIndex := currentQuestionIndex s;
     currentAnswer := currentAnswer s; feedback := feedback s;
     isSubmittingAnswer := isSubmittingAnswer s;
     showFeedback := showFeedback s;
     followUpQuestion := followUpQuestion s;
     isFetchingFollowUp := isFetchingFollowUp s; timer := timer s;
     ticking := ticking s |}.

Definition setCompany (v : string) (s : State) : State :=
  {| jobRole := jobRole s; company := v; difficulty := difficulty s;
     seniority := seniority s; numberOfQuestions := numberOfQuestions s;
     questionType := questionType s; questions := questions s;
     isLoading := isLoading s; error := error s;
     currentStep := currentStep s;
     savedQuestionSetId := savedQuestionSetId s;
     currentQuestionIndex := currentQuestionIndex s;
     currentAnswer := currentAnswer s; feedback := feedback s;
     isSubmittingAnswer := isSubmittingAnswer s;
     showFeedback := showFeedback s;
     followUpQuestion := followUpQuestion s;
     isFetchingFollowUp := isFetchingFollowUp s; timer := timer s;
     ticking := ticking s |}.

Definition setDifficulty (v : Difficulty) (s : State) : State :=
  {| jobRole := jobRole s; company := company s; difficulty := v;
     seniority := seniority s; numberOfQuestions := numberOfQuestions s;
     questionType := questionType s; questions := questions s;
     isLoading := isLoading s; error := error s;
     currentStep := currentStep s;
     savedQuestionSetId := savedQuestionSetId s;
     currentQuestionIndex := currentQuestionIndex s;
     currentAnswer := currentAnswer s; feedback := feedback s;
     isSubmittingAnswer := isSubmittingAnswer s;
     showFeedback := showFeedback s;
     followUpQuestion := followUpQuestion s;
     isFetchingFollowUp := isFetchingFollowUp s; timer := timer s;
     ticking := ticking s |}.

Definition setSeniority (v : string) (s : State) : State :=
  {| jobRole := jobRole s; company := company s;
     difficulty := difficulty s; seniority := v;
     numberOfQuestions := numberOfQuestions s;
     questionType := questionType s; questions := questions s;
     isLoading := isLoading s; error := error s;
     currentStep := currentStep s;
     savedQuestionSetId := savedQuestionSetId s;
     currentQuestionIndex := currentQuestionIndex s;
     currentAnswer := currentAnswer s; feedback := feedback s;
     isSubmittingAnswer := isSubmittingAnswer s;
     showFeedback := showFeedback s;
     followUpQuestion := followUpQuestion s;
     isFetchingFollowUp := isFetchingFollowUp s; timer := timer s;
     ticking := ticking s |}.

Definition setNumberOfQuestions (v : Z) (s : State) : State :=
  {| jobRole := jobRole s; company := company s;
     difficulty := difficulty s; seniority := seniority s;
     numberOfQuestions := v; questionType := questionType s;
     questions := questions s; isLoading := isLoading s; error := error s;
     currentStep := currentStep s;
     savedQuestionSetId := savedQuestionSetId s;
     currentQuestionIndex := currentQuestionIndex s;
     currentAnswer := currentAnswer s; feedback := feedback s;
     isSubmittingAnswer := isSubmittingAnswer s;
     showFeedback := showFeedback s;
     followUpQuestion := followUpQuestion s;
     isFetchingFollowUp := isFetchingFollowUp s; timer := timer s;
     ticking := ticking s |}.

Definition setQuestionType (v : QuestionTypeChoice) (s : State) : State :=
  {| jobRole := jobRole s; company := company s;
     difficulty := difficulty s; seniority := seniority s;
     numberOfQuestions := numberOfQuestions s; questionType := v;
     questions := questions s; isLoading := isLoading s; error := error s;
     currentStep := currentStep s;
     savedQuestionSetId := savedQuestionSetId s;
     currentQuestionIndex := currentQuestionIndex s;
     currentAnswer := currentAnswer s; feedback := feedback s;
     isSubmittingAnswer := isSubmittingAnswer s;
     showFeedback := showFeedback s;
     followUpQuestion := followUpQuestion s;
     isFetchingFollowUp := isFetchingFollowUp s; timer := timer s;
     ticking := ticking s |}.

Definition setQuestions (v : list Question) (s : State) : State :=
  {| jobRole := jobRole s; company := company s;
     difficulty := difficulty s; seniority := seniority s;
     numberOfQuestions := numberOfQuestions s;
     questionType := questionType s; questions := v;
     isLoading := isLoading s; error := error s;
     currentStep := currentStep s;
     savedQuestionSetId := savedQuestionSetId s;
     currentQuestionIndex := currentQuestionIndex s;
     currentAnswer := currentAnswer s; feedback := feedback s;
     isSubmittingAnswer := isSubmittingAnswer s;
     showFeedback := showFeedback s;
     followUpQuestion := followUpQuestion s;
     isFetchingFollowUp := isFetchingFollowUp s; timer := timer s;
     ticking := ticking s |}.

Definition setIsLoading (v : bool) (s : State) : State :=
  {| jobRole := jobRole s; company := company s;
     difficulty := difficulty s; seniority := seniority s;
     numberOfQuestions := numberOfQuestions s;
     questionType := questionType s; questions := questions s;
     isLoading := v; error := error s; currentStep := currentStep s;
     savedQuestionSetId := savedQuestionSetId s;
     currentQuestionIndex := currentQuestionIndex s;
     currentAnswer := currentAnswer s; feedback := feedback s;
     isSubmittingAnswer := isSubmittingAnswer s;
     showFeedback := showFeedback s;
     followUpQuestion := followUpQuestion s;
     isFetchingFollowUp := isFetchingFollowUp s; timer := timer s;
     ticking := ticking s |}.

Definition setError (v : string) (s : State) : State :=
  {| jobRole := jobRole s; company := company s;
     difficulty := difficulty s; seniority := seniority s;
     numberOfQuestions := numberOfQuestions s;
     questionType := questionType s; questions := questions s;
     isLoading := isLoading s; error := v; currentStep := currentStep s;
     savedQuestionSetId := savedQuestionSetId s;
     currentQuestionIndex := currentQuestionIndex s;
     currentAnswer := currentAnswer s; feedback := feedback s;
     isSubmittingAnswer := isSubmittingAnswer s;
     showFeedback := showFeedback s;
     followUpQuestion := followUpQuestion s;
     isFetchingFollowUp := isFetchingFollowUp s; timer := timer s;
     ticking := ticking s |}.

Definition setCurrentStep (v : Step) (s : State) : State :=
  {| jobRole := jobRole s; company := company s;
     difficulty := difficulty s; seniority := seniority s;
     numberOfQuestions := numberOfQuestions s;
     questionType := questionType s; questions := questions s;
     isLoading := isLoading s; error := error s; currentStep := v;
     savedQuestionSetId := savedQuestionSetId s;
     currentQuestionIndex := currentQuestionIndex s;
     currentAnswer := currentAnswer s; feedback := feedback s;
     isSubmittingAnswer := isSubmittingAnswer s;
     showFeedback := showFeedback s;
     followUpQuestion := followUpQuestion s;
     isFetchingFollowUp := isFetchingFollowUp s; timer := timer s;
     ticking := ticking s |}.

Definition setSavedQuestionSetId (v : option string) (s : State) : State :=
  {| jobRole := jobRole s; company := company s;
     difficulty := difficulty s; seniority := seniority s;
     numberOfQuestions := numberOfQuestions s;
     questionType := questionType s; questions := questions s;
     isLoading := isLoading s; error := error s;
     currentStep := currentStep s; savedQuestionSetId := v;
     currentQuestionIndex := currentQuestionIndex s;
     currentAnswer := currentAnswer s; feedback := feedback s;
     isSubmittingAnswer := isSubmittingAnswer s;
     showFeedback := showFeedback s;
     followUpQuestion := followUpQuestion s;
     isFetchingFollowUp := isFetchingFollowUp s; timer := timer s;
     ticking := ticking s |}.

Definition setCurrentQuestionIndex (v : Z) (s : State) : State :=
  {| jobRole := jobRole s; company := company s;
     difficulty := difficulty s; seniority := seniority s;
     numberOfQuestions := numberOfQuestions s;
     questionType := questionType s; questions := questions s;
     isLoading := isLoading s; error := error s;
     currentStep := currentStep s;
     savedQuestionSetId := savedQuestionSetId s; currentQuestionIndex := v;
     currentAnswer := currentAnswer s; feedback := feedback s;
     isSubmittingAnswer := isSubmittingAnswer s;
     showFeedback := showFeedback s;
     followUpQuestion := followUpQuestion s;
     isFetchingFollowUp := isFetchingFollowUp s; timer := timer s;
     ticking := ticking s |}.

Definition setCurrentAnswer (v : string) (s : State) : State :=
  {| jobRole := jobRole s; company := company s;
     difficulty := difficulty s; seniority := seniority s;
     numberOfQuestions := numberOfQuestions s;
     questionType := questionType s; questions := questions s;
     isLoading := isLoading s; error := error s;
     currentStep := currentStep s;
     savedQuestionSetId := savedQuestionSetId s;
     currentQuestionIndex := currentQuestionIndex s; currentAnswer := v;
     feedback := feedback s; isSubmittingAnswer := isSubmittingAnswer s;
     showFeedback := showFeedback s;
     followUpQuestion := followUpQuestion s;
     isFetchingFollowUp := isFetchingFollowUp s; timer := timer s;
     ticking := ticking s |}.

Definition setFeedback (v : string) (s : State) : State :=
  {| jobRole := jobRole s; company := company s;
     difficulty := difficulty s; seniority := seniority s;
     numberOfQuestions := numberOfQuestions s;
     questionType := questionType s; questions := questions s;
     isLoading := isLoading s; error := error s;
     currentStep := currentStep s;
     savedQuestionSetId := savedQuestionSetId s;
     currentQuestionIndex := currentQuestionIndex s;
     currentAnswer := currentAnswer s; feedback := v;
     isSubmittingAnswer := isSubmittingAnswer s;
     showFeedback := showFeedback s;
     followUpQuestion := followUpQuestion s;
     isFetchingFollowUp := isFetchingFollowUp s; timer := timer s;
     ticking := ticking s |}.

Definition setIsSubmittingAnswer (v : bool) (s : State) : State :=
  {| jobRole := jobRole s; company := company s;
     difficulty := difficulty s; seniority := seniority s;
     numberOfQuestions := numberOfQuestions s;
     questionType := questionType s; questions := questions s;
     isLoading := isLoading s; error := error s;
     currentStep := currentStep s;
     savedQuestionSetId := savedQuestionSetId s;
     currentQuestionIndex := currentQuestionIndex s;
     currentAnswer := currentAnswer s; feedback := feedback s;
     isSubmittingAnswer := v; showFeedback := showFeedback s;
     followUpQuestion := followUpQuestion s;
     isFetchingFollowUp := isFetchingFollowUp s; timer := timer s;
     ticking := ticking s |}.

Definition setShowFeedback (v : bool) (s : State) : State :=
  {| jobRole := jobRole s; company := company s;
     difficulty := difficulty s; seniority := seniority s;
     numberOfQuestions := numberOfQuestions s;
     questionType := questionType s; questions := questions s;
     isLoading := isLoading s; error := error s;
     currentStep := currentStep s;
     savedQuestionSetId := savedQuestionSetId s;
     currentQuestionIndex := currentQuestionIndex s;
     currentAnswer := currentAnswer s; feedback := feedback s;
     isSubmittingAnswer := isSubmittingAnswer s; showFeedback := v;
     followUpQuestion := followUpQuestion s;
     isFetchingFollowUp := isFetchingFollowUp s; timer := timer s;
     ticking := ticking s |}.

Definition setFollowUpQuestion (v : string) (s : State) : State :=
  {| jobRole := jobRole s; company := company s;
     difficulty := difficulty s; seniority := seniority s;
     numberOfQuestions := numberOfQuestions s;
     questionType := questionType s; questions := questions s;
     isLoading := isLoading s; error := error s;
     currentStep := currentStep s;
     savedQuestionSetId := savedQuestionSetId s;
     currentQuestionIndex := currentQuestionIndex s;
     currentAnswer := currentAnswer s; feedback := feedback s;
     isSubmittingAnswer := isSubmittingAnswer s;
     showFeedback := showFeedback s; followUpQuestion := v;
     isFetchingFollowUp := isFetchingFollowUp s; timer := timer s;
     ticking := ticking s |}.

Definition setIsFetchingFollowUp (v : bool) (s : State) : State :=
  {| jobRole := jobRole s; company := company s;
     difficulty := difficulty s; seniority := seniority s;
     numberOfQuestions := numberOfQuestions s;
     questionType := questionType s; questions := questions s;
     isLoading := isLoading s; error := error s;
     currentStep := currentStep s;
     savedQuestionSetId := savedQuestionSetId s;
     currentQuestionIndex := currentQuestionIndex s;
     currentAnswer := currentAnswer s; feedback := feedback s;
     isSubmittingAnswer := isSubmittingAnswer s;
     showFeedback := showFeedback s;
     followUpQuestion := followUpQuestion s; isFetchingFollowUp := v;
     timer := timer s; ticking := ticking s |}.

Definition setTimer (v : Z) (s : State) : State :=
  {| jobRole := jobRole s; company := company s;
     difficulty := difficulty s; seniority := seniority s;
     numberOfQuestions := numberOfQuestions s;
     questionType := questionType s; questions := questions s;
     isLoading := isLoading s; error := error s;
     currentStep := currentStep s;
     savedQuestionSetId := savedQuestionSetId s;
     currentQuestionIndex := currentQuestionIndex s;
     currentAnswer := currentAnswer s; feedback := feedback s;
     isSubmittingAnswer := isSubmittingAnswer s;
     showFeedback := showFeedback s;
     followUpQuestion := followUpQuestion s;
     isFetchingFollowUp := isFetchingFollowUp s; timer := v;
     ticking := ticking s |}.

Definition setTicking (v : bool) (s : State) : State :=
  {| jobRole := jobRole s; company := company s;
     difficulty := difficulty s; seniority := seniority s;
     numberOfQuestions := numberOfQuestions s;
     questionType := questionType s; questions := questions s;
     isLoading := isLoading s; error := error s;
     currentStep := currentStep s;
     savedQuestionSetId := savedQuestionSetId s;
     currentQuestionIndex := currentQuestionIndex s;
     currentAnswer := currentAnswer s; feedback := feedback s;
     isSubmittingAnswer := isSubmittingAnswer s;
     showFeedback := showFeedback s;
     followUpQuestion := followUpQuestion s;
     isFetchingFollowUp := isFetchingFollowUp s; timer := timer s;
     ticking := v |}.

Definition initial : State :=
  {| jobRole := ""; company := ""; difficulty := medium;
     seniority := "mid-level"; numberOfQuestions := 5; questionType := all;
     questions := []; isLoading := false; error := ""; currentStep := Input;
     savedQuestionSetId := None; currentQuestionIndex := 0;
     currentAnswer := ""; feedback := ""; isSubmittingAnswer := false;
     showFeedback := false; followUpQuestion := ""; isFetchingFollowUp := false;
     timer := 0; ticking := false |}.

(** *** Requests and replies *)

Inductive Body : Type :=
| UserBody (email name image googleId : option string)
| GenerateBody (jobRole company : string) (difficulty : Difficulty)
    (experience : string) (numberOfQuestions : Z)
    (questionType : QuestionTypeChoice) (userId : string)
| FeedbackBody (question : option string) (answer : string) (timeSpent : Z)
| FollowUpBody (originalQuestion : option string) (answer : string).

(** A [POST] to [backendUrl + path]. *)
Record Request : Type :=
  { path : string; headers : list (string * string); body : Body }.

Definition userHeaders (u : User) : list (string * string) :=
  [("x-user-email", Js.orOpt (email u) "");
   ("x-user-name", Js.orOpt (name u) "");
   ("x-user-image", Js.orOpt (image u) "")].

(** Lines 183-197. *)
Definition authUserRequest (u : User) : Request :=
  {| path := "/api/db/auth/user";
     headers := ("Content-Type", "application/json") :: userHeaders u;
     body := UserBody (email u) (name u) (image u) (email u) |}.

(** Lines 201-226; [s] holds the values the handler closed over. *)
Definition generateRequest (user : option User) (s : State) : Request :=
  {| path := match user with
             | Some _ => "/api/db/generate-questions"
             | None => "/api/generate-questions"
             end;
     headers := ("Content-Type", "application/json")
                  :: match user with Some u => userHeaders u | None => [] end;
     body := GenerateBody (jobRole s) (company s) (difficulty s) (seniority s)
               (numberOfQuestions s) (questionType s)
               (Js.orOpt (user ≫= email) "anonymous") |}.

Definition currentQuestion (s : State) : option string :=
  q_question <$> Js.index (questions s) (currentQuestionIndex s).

(** Lines 302-312. *)
Definition feedbackRequest (s : State) : Request :=
  {| path := "/api/generate-feedback";
     headers := [("Content-Type", "application/json")];
     body := FeedbackBody (currentQuestion s) (currentAnswer s) (timer s) |}.

(** Lines 260-269. *)
Definition followUpRequest (s : State) : Request :=
  {| path := "/api/generate-follow-up";
     headers := [("Content-Type", "application/json")];
     body := FollowUpBody (currentQuestion s) (currentAnswer s) |}.

(** The fields the page reads of a parsed reply, each present or not. *)
Record Data : Type :=
  { data_questions : option (list Question);
    data_questionSetId : option string;
    data_feedback : option string;
    data_followUpQuestion : option string }.

(** What an awaited [fetch] and the [response.json()] after it give:
    a response with its [ok] flag and parsed body ([None]: the body does
    not parse, or is [null], either of which throws into the handler's
    [catch]), or a rejected call. *)
Inductive Reply : Type :=
| Replied (ok : bool) (data : option Data)
| Failed.

(** A handler suspended at an [await], with what it closed over where
    the rest of it reads that. *)
Inductive Awaiting : Type :=
| AuthUserFetch (closure : State) (user : User)
| GenerateFetch
| FeedbackFetch
| FollowUpFetch.

Definition Started : Type := list (Request * Awaiting).

(** *** The handlers *)

(** Lines 169-244, up to the first [await]. *)
Definition handleGenerateQuestions (user : option User) (s : State)
  : State * Started :=
  if Js.blank (jobRole s) || Js.blank (company s)
  then (setError "Please fill both fields" s, [])
  else
    let s' := setError "" (setIsLoading true s) in
    match user with
    | Some u => (s', [(authUserRequest u, AuthUserFetch s u)])
    | None => (s', [(generateRequest None s, GenerateFetch)])
    end.

(** Lines 238-243: the [catch] and [finally] of the handler. *)
Definition generateFailed (s : State) : State :=
  setIsLoading false
    (setError "Failed to generate questions. Please try again." s).

(** Lines 232-237 and 241-243. *)
Definition generateSucceeded (data : Data) (s : State) : State :=
  let s1 := setQuestions (default [] (data_questions data)) s in
  let s2 := match data_questionSetId data with
            | Some i => if String.eqb i "" then s1
                        else setSavedQuestionSetId (Some i) s1
            | None => s1
            end in
  setIsLoading false (setCurrentStep Questions s2).

(** Lines 246-253. *)
Definition startMockInterview (s : State) : State :=
  setTimer 0 (setShowFeedback false (setFeedback "" (setCurrentAnswer ""
    (setCurrentQuestionIndex 0 (setCurrentStep Mock s))))).

(** Lines 255-269, up to the [await]. *)
Definition requestFollowUp (s : State) : State * Started :=
  (setFollowUpQuestion "" (setIsFetchingFollowUp true s),
   [(followUpRequest s, FollowUpFetch)]).

Definition followUpApology : string :=
  "Sorry, I couldn't generate a follow-up. Please proceed to the next question.".

(** Lines 287-312, up to the [await]. *)
Definition submitAnswer (s : State) : State * Started :=
  if Js.blank (currentAnswer s)
  then (setError "Please provide an answer before submitting" s, [])
  else
    (setError "" (setIsSubmittingAnswer true (setTicking false s)),
     [(feedbackRequest s, FeedbackFetch)]).

Definition feedbackFallback : string :=
  "Good response! Keep practicing to improve further.".

(** Lines 329-342. *)
Definition nextQuestion (s : State) : State :=
  if currentQuestionIndex s <? Z.of_nat (length (questions s)) - 1
  then
    setTimer 0 (setError "" (setFollowUpQuestion "" (setShowFeedback false
      (setFeedback "" (setCurrentAnswer ""
        (setCurrentQuestionIndex (currentQuestionIndex s + 1) s))))))
  else setCurrentStep Complete s.

(** Lines 344-356. *)
Definition resetToHome (s : State) : State :=
  setTimer 0 (setFollowUpQuestion "" (setShowFeedback false (setFeedback ""
    (setCurrentAnswer "" (setCurrentQuestionIndex 0 (setError ""
      (setCompany "" (setJobRole "" (setQuestions []
        (setCurrentStep Input s)))))))))).

(** The rest of a suspended handler, run when its call settles. *)
Definition resume (a : Awaiting) (r : Reply) (s : State) : State * Started :=
  match a with
  | AuthUserFetch closure u =>
      (* line 183: the response is not looked at *)
      match r with
      | Replied _ _ => (s, [(generateRequest (Some u) closure, GenerateFetch)])
      | Failed => (generateFailed s, [])
      end
  | GenerateFetch =>
      match r with
      | Replied true (Some data) => (generateSucceeded data s, [])
      | _ => (generateFailed s, [])
      end
  | FeedbackFetch =>
      (* lines 314-326 *)
      match r with
      | Replied true (Some data) =>
          (setIsSubmittingAnswer false (setShowFeedback true
             (setFeedback (Js.orOpt (data_feedback data) feedbackFallback) s)), [])
      | _ =>
          (setIsSubmittingAnswer false
             (setError "Failed to get feedback. Please try again." s), [])
      end
  | FollowUpFetch =>
      (* lines 271-284; an absent field leaves [undefined], which the
         page shows like the empty string *)
      match r with
      | Replied true (Some data) =>
          (setIsFetchingFollowUp false
             (setFollowUpQuestion (default "" (data_followUpQuestion data)) s), [])
      | _ =>
          (setIsFetchingFollowUp false (setFollowUpQuestion followUpApology s), [])
      end
  end.

(** *** The timer effect (lines 143-159) *)

Definition stepEqb (a b : Step) : bool :=
  match a, b with
  | Input, Input | Questions, Questions | Mock, Mock | Complete, Complete => true
  | _, _ => false
  end.

(** Whether a render changes one of the dependencies
    [[currentStep, currentQuestionIndex, showFeedback]]. *)
Definition depsChanged (prev next : State) : bool :=
  negb (stepEqb (currentStep prev) (currentStep next))
  || negb (currentQuestionIndex prev =? currentQuestionIndex next)
  || negb (Bool.eqb (showFeedback prev) (showFeedback next)).

(** When a dependency changed, the interval of the previous run is
    cleared and a new one is set exactly in the first branch. *)
Definition effect (prev next : State) : State :=
  if depsChanged prev next
  then setTicking (stepEqb (currentStep next) Mock && negb (showFeedback next)) next
  else next.

(** *** The controls the component renders (lines 358-888) *)

Definition generateDisabled (s : State) : bool :=
  isLoading s || Js.blank (jobRole s) || Js.blank (company s).

Definition submitDisabled (s : State) : bool :=
  isSubmittingAnswer s || Js.blank (currentAnswer s).

Definition seniorityOptions : list string :=
  ["junior"; "mid-level"; "senior"; "lead"].

Definition numberOptions : list Z := [5; 10; 15; 20].

(** What can happen to the mounted component: the user acts on a
    control, the interval ticks, the call of a suspended handler
    settles, or the sign-in session changes. *)
Inductive Event : Type :=
| TypeJobRole (v : string)
| TypeCompany (v : string)
| PickDifficulty (v : Difficulty)
| PickSeniority (v : string)
| PickNumberOfQuestions (v : Z)
| PickQuestionType (v : QuestionTypeChoice)
| ClickGenerate
| ClickStartMock
| ClickReset
| TypeAnswer (v : string)
| ClickSubmit
| ClickFollowUp
| ClickNext
| Tick
| Settle (n : nat) (r : Reply)
| SessionChange (user : option User).

(** The component with the handlers it has suspended. *)
Record World : Type :=
  { state : State; session : option User; awaiting : list Awaiting }.

Definition mount (user : option User) : World :=
  {| state := initial; session := user; awaiting := [] |}.

(** Nothing happens: the control is not on the screen, or is disabled. *)
Definition idle (w : World) : World * list Request := (w, []).

(** A handler (or the rest of one) has run: the component renders with
    the new state, the effect follows, the calls it made are out. *)
Definition commit (w : World) (waiting : list Awaiting) (r : State * Started)
  : World * list Request :=
  ({| state := effect (state w) (fst r);
      session := session w;
      awaiting := waiting ++ List.map snd (snd r) |},
   List.map fst (snd r)).

Definition fire (ev : Event) (w : World) : World * list Request :=
  let s := state w in
  let here := commit w (awaiting w) in
  match ev with
  | TypeJobRole v =>
      if stepEqb (currentStep s) Input then here (setJobRole v s, []) else idle w
  | TypeCompany v =>
      if stepEqb (currentStep s) Input then here (setCompany v s, []) else idle w
  | PickDifficulty v =>
      if stepEqb (currentStep s) Input then here (setDifficulty v s, []) else idle w
  | PickSeniority v =>
      if stepEqb (currentStep s) Input && existsb (String.eqb v) seniorityOptions
      then here (setSeniority v s, []) else idle w
  | PickNumberOfQuestions v =>
      if stepEqb (currentStep s) Input && existsb (Z.eqb v) numberOptions
      then here (setNumberOfQuestions v s, []) else idle w
  | PickQuestionType v =>
      if stepEqb (currentStep s) Input then here (setQuestionType v s, []) else idle w
  | ClickGenerate =>
      (* lines 593-596 *)
      if stepEqb (currentStep s) Input && negb (generateDisabled s)
      then here (handleGenerateQuestions (session w) s) else idle w
  | ClickStartMock =>
      if stepEqb (currentStep s) Questions
      then here (startMockInterview s, []) else idle w
  | ClickReset =>
      (* lines 665, 693, 872 *)
      if negb (stepEqb (currentStep s) Input)
      then here (resetToHome s, []) else idle w
  | TypeAnswer v =>
      if stepEqb (currentStep s) Mock then here (setCurrentAnswer v s, []) else idle w
  | ClickSubmit =>
      (* lines 749-753 *)
      if stepEqb (currentStep s) Mock && negb (showFeedback s)
         && negb (submitDisabled s)
      then here (submitAnswer s) else idle w
  | ClickFollowUp =>
      (* lines 785-788 *)
      if stepEqb (currentStep s) Mock && showFeedback s
         && negb (isFetchingFollowUp s)
      then here (requestFollowUp s) else idle w
  | ClickNext =>
      if stepEqb (currentStep s) Mock && showFeedback s
      then here (nextQuestion s, []) else idle w
  | Tick =>
      if ticking s then here (setTimer (timer s + 1) s, []) else idle w
  | Settle n r =>
      match awaiting w !! n with
      | Some a => commit w (delete n (awaiting w)) (resume a r s)
      | None => idle w
      end
  | SessionChange user =>
      ({| state := s; session := user; awaiting := awaiting w |}, [])
  end.

Definition run (evs : list Event) (w : World) : World :=
  fold_left (fun w ev => fst (fire ev w)) evs w.

Inductive reachable : World -> Prop :=
| reachable_mount user : reachable (mount user)
| reachable_fire ev w : reachable w -> reachable (fst (fire ev w)).

(** Handlers of [handleGenerateQuestions] that are suspended. *)
Definition generating (a : Awaiting) : bool :=
  match a with
  | AuthUserFetch _ _ | GenerateFetch => true
  | FeedbackFetch | FollowUpFetch => false
  end.

Fixpoint count (p : Awaiting -> bool) (l : list Awaiting) : nat :=
  match l with
  | [] => O
  | a :: rest => if p a then S (count p rest) else count p rest
  end.

Definition generationsInFlight (w : World) : nat :=
  count generating (awaiting w).

(** The index is not negative, and in the mock interview it is 0 or a
    position of [questions]. *)
Definition indexOk (s : State) : Prop :=
  0 <= currentQuestionIndex s
  /\ (currentStep s = Mock ->
      currentQuestionIndex s = 0
      \/ currentQuestionIndex s < Z.of_nat (length (questions s))).

(** The interval is live only in the mock interview, before the
    feedback shows. *)
Definition tickingOk (s : State) : Prop :=
  ticking s = true -> currentStep s = Mock /\ showFeedback s = false.

(** As many generations are in flight as [isLoading] says. *)
Definition loadingOk (w : World) : Prop :=
  generationsInFlight w = (if isLoading (state w) then 1 else 0)%nat.

End Page.

Module PageInputs.
Import Page.

Definition q1 : Question :=
  {| q_id := "q1"; q_question := "Tell me about a project you led.";
     q_type := behavioral; q_difficulty := medium; q_category := "leadership" |}.

Definition q2 : Question :=
  {| q_id := "q2"; q_question := "How would you design a rate limiter?";
     q_type := technical; q_difficulty := hard; q_category := "design" |}.

Definition noData : Data :=
  {| data_questions := None; data_questionSetId := None;
     data_feedback := None; data_followUpQuestion := None |}.

Definition twoQuestions : Data :=
  {| data_questions := Some [q1; q2]; data_questionSetId := Some "set-1";
     data_feedback := None; data_followUpQuestion := None |}.

Definition noQuestions : Data :=
  {| data_questions := Some []; data_questionSetId := None;
     data_feedback := None; data_followUpQuestion := None |}.

Definition emptyFeedback : Data :=
  {| data_questions := None; data_questionSetId := None;
     data_feedback := Some ""; data_followUpQuestion := None |}.

Definition fillForm : list Event :=
  [TypeJobRole "Software Engineer"; TypeCompany "Google"].

(** The form is filled and the generation is under way. *)
Definition loading : World := run (fillForm ++ [ClickGenerate]) (mount None).

(** Two questions came back, the first is answered and has its
    feedback, and the user went on to the second. *)
Definition secondQuestion : World :=
  run (fillForm ++
       [ClickGenerate; Settle 0 (Replied true (Some twoQuestions));
        ClickStartMock; TypeAnswer "I led a project";
        ClickSubmit; Settle 0 (Replied true (Some noData)); ClickNext])
    (mount None).

(** The backend came back with no question, and the user started the
    mock interview. *)
Definition emptyMock : World :=
  run (fillForm ++
       [ClickGenerate; Settle 0 (Replied true (Some noQuestions));
        ClickStartMock])
    (mount None).

(** In the mock interview, with only blanks typed. *)
Definition blankAnswer : State :=
  state (run [TypeAnswer "   "] secondQuestion).

End PageInputs.

(** ** What a call of [fetchWithRetry] comes to *)

Module FetchWithRetryRounds.
Import FetchWithRetry.

(** What the function settles with when the round that received [y] is
    its last: line 35 or 45 for a response, lines 51-53 for the abort,
    lines 66-69 for another error. *)
Definition conclude (y : Settled) : Completion :=
  match y with
  | Resolves response => Returns response
  | Rejects error =>
      if String.eqb (name error) "AbortError"
      then Throws timeoutMessage
      else Throws (Js.orStr (message error) networkMessage)
  end.

End FetchWithRetryRounds.

(** ** The interview page: the clock, and what holds of its states *)

Module PageSession.
Import Page.

(** [s.padStart(targetLength, pad)] for a pad of one character. *)
Fixpoint padding (n : nat) (pad : ascii) : string :=
  match n with
  | O => EmptyString
  | S n' => String pad (padding n' pad)
  end.

Definition padStart (targetLength : nat) (pad : ascii) (s : string) : string :=
  padding (targetLength - String.length s) pad +:+ s.

(** Lines 161-167.  [Math.floor(seconds / 60)] is the quotient rounded
    down, [seconds % 60] the remainder with the sign of [seconds]. *)
Definition formatTime (seconds : Z) : string :=
  let minutes := seconds / 60 in
  let remainingSeconds := Z.rem seconds 60 in
  padStart 2 "0" (Js.decimal minutes) +:+ ":"
    +:+ padStart 2 "0" (Js.decimal remainingSeconds).

(** The character of a decimal digit. *)
Definition digit (n : Z) : ascii := ascii_of_nat (48 + Z.to_nat n).

(** Two digits of minutes, a colon, two digits of seconds. *)
Definition clockFace (seconds : Z) : string :=
  String (digit (seconds / 600))
    (String (digit (seconds / 60 mod 10))
       (String ":"
          (String (digit (seconds mod 60 / 10))
             (String (digit (seconds mod 10)) EmptyString)))).

Definition showsClockFace (n : nat) : bool :=
  String.eqb (formatTime (Z.of_nat n)) (clockFace (Z.of_nat n)).

(** Handlers of [submitAnswer], of [requestFollowUp], that are
    suspended. *)
Definition submitting (a : Awaiting) : bool :=
  match a with FeedbackFetch => true | _ => false end.

Definition followingUp (a : Awaiting) : bool :=
  match a with FollowUpFetch => true | _ => false end.

(** A reply that sends the handler to its [catch]. *)
Definition failed (r : Reply) : bool :=
  match r with
  | Replied true (Some _) => false
  | _ => true
  end.

(** The edits of the form on the input screen. *)
Definition isFormEdit (ev : Event) : bool :=
  match ev with
  | TypeJobRole _ | TypeCompany _ | PickDifficulty _ | PickSeniority _
  | PickNumberOfQuestions _ | PickQuestionType _ => true
  | _ => false
  end.

(** The moves of [currentStep] from the world [w], each with the event
    that makes it and what [w] must hold for the event to make it: the
    reply that takes the page to the questions settles a suspended
    generation request (lines 228-237), and the next button ends the
    interview when the feedback shows on the last question (lines
    329-342). *)
Inductive edge (w : World) : Event -> Step -> Step -> Prop :=
| edge_stay ev a : edge w ev a a
| edge_generated n data :
    awaiting w !! n = Some GenerateFetch ->
    edge w (Settle n (Replied true (Some data))) Input Questions
| edge_start : edge w ClickStartMock Questions Mock
| edge_complete :
    showFeedback (state w) = true ->
    Z.of_nat (length (questions (state w))) - 1 <= currentQuestionIndex (state w) ->
    edge w ClickNext Mock Complete
| edge_reset a : a <> Input -> edge w ClickReset a Input.

(** The events that take a generation started from the click of a user
    [user] to its [catch] (lines 238-240), the handler waiting at [n]:
    for a visitor, a failing reply to the generation request; for a
    signed-in user, the registration call rejected (line 183), or the
    registration call answered, whatever the response, and then a
    failing reply to the generation request. *)
Definition generationFails (n : nat) (user : option User) (evs : list Event)
  : bool :=
  match user, evs with
  | None, [Settle m r] => Nat.eqb m n && failed r
  | Some _, [Settle m Failed] => Nat.eqb m n
  | Some _, [Settle m (Replied _ _); Settle m' r] =>
      Nat.eqb m n && Nat.eqb m' n && failed r
  | _, _ => false
  end.

(** As many submissions, as many follow-ups, are in flight as the flag
    of each says. *)
Definition submittingOk (w : World) : Prop :=
  count submitting (awaiting w)
  = (if isSubmittingAnswer (state w) then 1 else 0)%nat.

Definition followingUpOk (w : World) : Prop :=
  count followingUp (awaiting w)
  = (if isFetchingFollowUp (state w) then 1 else 0)%nat.

(** What [requestFollowUp] stores when its call settles. *)
Definition followUpText (r : Reply) : string :=
  match r with
  | Replied true (Some data) => default "" (data_followUpQuestion data)
  | _ => followUpApology
  end.

(** One question answered: the answer typed, submit clicked, the
    feedback come back, next clicked.  No other request is in flight. *)
Definition answerRound (answer : string) (data : Data) : list Event :=
  [TypeAnswer answer; ClickSubmit; Settle 0 (Replied true (Some data)); ClickNext].

Fixpoint answerRounds (k : nat) (answer : string) (data : Data) : list Event :=
  match k with
  | O => []
  | S k' => answerRound answer data ++ answerRounds k' answer data
  end.

(** Question [i] of [qs] is open: shown in the mock interview, not yet
    answered, with no request in flight. *)
Definition openQuestion (qs : list Question) (i : Z) (w : World) : Prop :=
  currentStep (state w) = Mock
  /\ showFeedback (state w) = false
  /\ isSubmittingAnswer (state w) = false
  /\ awaiting w = []
  /\ questions (state w) = qs
  /\ currentQuestionIndex (state w) = i.

(** What holds of every state the page can reach. *)
Record sound (w : World) : Prop :=
  { sound_loading : loadingOk w;
    sound_submitting : submittingOk w;
    sound_followingUp : followingUpOk w;
    sound_input : isLoading (state w) = true -> currentStep (state w) = Input;
    sound_before :
      currentStep (state w) = Input \/ currentStep (state w) = Questions ->
      currentQuestionIndex (state w) = 0 /\ timer (state w) = 0
      /\ currentAnswer (state w) = "";
    sound_empty : currentStep (state w) = Input -> questions (state w) = [];
    sound_timer : 0 <= timer (state w);
    sound_ticking : tickingOk (state w) }.

End PageSession.

Module PageSessionInputs.
Import Page PageInputs.

(** Two questions came back and the mock interview has just started. *)
Definition firstQuestion : World :=
  run (fillForm ++
       [ClickGenerate; Settle 0 (Replied true (Some twoQuestions)); ClickStartMock])
    (mount None).

(** The first question is answered and its feedback shows. *)
Definition feedbackShown : World :=
  run [TypeAnswer "I led a project"; ClickSubmit;
       Settle 0 (Replied true (Some emptyFeedback))] firstQuestion.

(** The first answer is submitted and its feedback not yet back. *)
Definition submitted : World :=
  run [TypeAnswer "I led a project"; ClickSubmit] firstQuestion.

(** The follow-up to the first answer is being fetched. *)
Definition fetchingFollowUp : World := run [ClickFollowUp] feedbackShown.

Definition someone : User :=
  {| email := Some "ada@example.org"; name := Some "Ada"; image := None |}.

(** A signed-in user has filled the form. *)
Definition signedIn : World := run fillForm (mount (Some someone)).

End PageSessionInputs.

(** ** src/components/BookmarkManager.tsx *)

Module BookmarkManager.

(** [interface Question] of this file: [type] and [difficulty] are
    strings here. *)
Record Question : Type :=
  { q_id : string; q_question : string; q_type : string;
    q_difficulty : string; q_category : string }.

Record SavedQuestionSet : Type :=
  { id : Z; title : string; description : option string;
    questions : list Question; tags : list string; isFavorite : bool;
    practiceCount : Z; createdAt : string }.

(** [{ ...b, isFavorite: v }]. *)
Definition withFavorite (v : bool) (b : SavedQuestionSet) : SavedQuestionSet :=
  {| id := id b; title := title b; description := description b;
     questions := questions b; tags := tags b; isFavorite := v;
     practiceCount := practiceCount b; createdAt := createdAt b |}.

(** Lines 89-93: the update of [bookmarks] in [toggleFavorite]. *)
Definition markFavorite (setId : Z) (v : bool) (prev : list SavedQuestionSet)
  : list SavedQuestionSet :=
  List.map (fun b => if id b =? setId then withFavorite v b else b) prev.

(** Line 116: the update of [bookmarks] in [deleteBookmark]. *)
Definition removeSet (setId : Z) (prev : list SavedQuestionSet)
  : list SavedQuestionSet :=
  List.filter (fun b => negb (id b =? setId)) prev.

(** The state variables of the component (lines 34-37); [allTags] is
    its [tags]. *)
Record State : Type :=
  { bookmarks : list SavedQuestionSet; loading : bool;
    selectedTag : option string; allTags : list string }.

Definition setBookmarks (v : list SavedQuestionSet) (s : State) : State :=
  {| bookmarks := v; loading := loading s; selectedTag := selectedTag s;
     allTags := allTags s |}.

Inductive Toast : Type :=
| toastSuccess (text : string)
| toastError (text : string).

(** What a call and the [response.json()] after it give a handler: a
    body with its [success] flag and the [data] the handler reads, or an
    exception (the call fails, or the body does not parse). *)
Inductive Reply (D : Type) : Type :=
| Answered (success : bool) (data : D)
| Broken.
Arguments Answered {D} success data.
Arguments Broken {D}.

(** Lines 86-100: [toggleFavorite] once its call has settled; the data
    is [data.data.isFavorite]. *)
Definition toggleFavoriteDone (setId : Z) (r : Reply bool) (s : State)
  : State * list Toast :=
  match r with
  | Answered true v =>
      (setBookmarks (markFavorite setId v (bookmarks s)) s,
       [toastSuccess (if v then "Added to favorites" else "Removed from favorites")])
  | Answered false _ => (s, [])
  | Broken => (s, [toastError "Failed to update favorite"])
  end.

(** Lines 113-121: [deleteBookmark] once its call has settled. *)
Definition deleteBookmarkDone (setId : Z) (r : Reply unit) (s : State)
  : State * list Toast :=
  match r with
  | Answered true _ =>
      (setBookmarks (removeSet setId (bookmarks s)) s,
       [toastSuccess "Question set deleted"])
  | Answered false _ => (s, [])
  | Broken => (s, [toastError "Failed to delete question set"])
  end.

(** A reply to one of the two buttons of a card. *)
Inductive Done : Type :=
| ToggleDone (setId : Z) (r : Reply bool)
| DeleteDone (setId : Z) (r : Reply unit).

Definition settle (d : Done) (s : State) : State * list Toast :=
  match d with
  | ToggleDone setId r => toggleFavoriteDone setId r s
  | DeleteDone setId r => deleteBookmarkDone setId r s
  end.

(** The cards the two replies are about are different ones, or one of
    the two is a deletion. *)
Definition independent (d1 d2 : Done) : Prop :=
  match d1, d2 with
  | ToggleDone a _, ToggleDone b _ => a <> b
  | _, _ => True
  end.

End BookmarkManager.

Module BookmarkInputs.
Import BookmarkManager.

Definition set1 : SavedQuestionSet :=
  {| id := 1; title := "Backend"; description := None; questions := [];
     tags := ["go"]; isFavorite := false; practiceCount := 0;
     createdAt := "2025-01-01" |}.

Definition set2 : SavedQuestionSet :=
  {| id := 2; title := "Frontend"; description := Some "React"; questions := [];
     tags := []; isFavorite := true; practiceCount := 3;
     createdAt := "2025-01-02" |}.

Definition loaded : State :=
  {| bookmarks := [set1; set2]; loading := false; selectedTag := None;
     allTags := ["go"] |}.

End BookmarkInputs.

(** * Properties *)

(** ** The request client *)

Module FetchWithRetryFacts.
Import FetchWithRetry.

Lemma fetches_app tr1 tr2 : fetches (tr1 ++ tr2) = (fetches tr1 + fetches tr2)%nat.
Proof.
  induction tr1 as [|e tr1 IH]; simpl; [reflexivity|].
  destruct e; simpl; rewrite IH; reflexivity.
Qed.

Lemma sleeps_app tr1 tr2 : sleeps (tr1 ++ tr2) = sleeps tr1 ++ sleeps tr2.
Proof.
  induction tr1 as [|e tr1 IH]; simpl; [reflexivity|].
  destruct e; simpl; rewrite IH; reflexivity.
Qed.

Lemma fetches_quiet tr : fetches (quiet tr) = fetches tr.
Proof.
  induction tr as [|e tr IH]; simpl; [reflexivity|].
  destruct e; simpl; rewrite ?IH; reflexivity.
Qed.

Lemma sleeps_quiet tr : sleeps (quiet tr) = sleeps tr.
Proof.
  induction tr as [|e tr IH]; simpl; [reflexivity|].
  destruct e; simpl; rewrite ?IH; reflexivity.
Qed.

Lemma backoff_S d i k : backoff d i (S k) =
  Fetch :: Sleep (d * (Z.of_nat i + 1)) :: backoff d (S i) k.
Proof. reflexivity. Qed.

Lemma fetches_backoff d k i : fetches (backoff d i k) = k.
Proof.
  revert i; induction k as [|k IH]; intros i; [reflexivity|].
  rewrite backoff_S; simpl; rewrite IH; reflexivity.
Qed.

Lemma sleeps_backoff d k i :
  sleeps (backoff d i k) = List.map (fun j => d * (Z.of_nat j + 1)) (seq i k).
Proof.
  revert i; induction k as [|k IH]; intros i; [reflexivity|].
  rewrite backoff_S; simpl; rewrite IH; reflexivity.
Qed.

(** [d*1 + d*2 + ... + d*k], summed from the last term back. *)
Lemma sum_backoff_from d k i :
  2 * fold_right Z.add 0 (List.map (fun j => d * (Z.of_nat j + 1)) (seq i k))
  = d * (Z.of_nat k * (2 * Z.of_nat i + Z.of_nat k + 1)).
Proof.
  revert i; induction k as [|k IH]; intros i; [simpl; lia|].
  cbn [seq List.map fold_right].
  rewrite Z.mul_add_distr_l, IH. lia.
Qed.

Lemma sum_backoff d k :
  fold_right Z.add 0 (List.map (fun j => d * (Z.of_nat j + 1)) (seq 0 k))
  = d * (Z.of_nat k * (Z.of_nat k + 1) / 2).
Proof.
  pose proof (sum_backoff_from d k 0) as H.
  assert (E : exists h, Z.of_nat k * (Z.of_nat k + 1) = 2 * h).
  { destruct (Z.Even_or_Odd (Z.of_nat k)) as [[h Hh]|[h Hh]].
    - exists (h * (Z.of_nat k + 1)). lia.
    - exists (Z.of_nat k * (h + 1)). lia. }
  destruct E as [h Hh]. rewrite Hh.
  replace (2 * h / 2) with h by (rewrite (Z.mul_comm 2 h), Z.div_mul; lia).
  nia.
Qed.

Lemma quiet_app tr1 tr2 : quiet (tr1 ++ tr2) = quiet tr1 ++ quiet tr2.
Proof.
  induction tr1 as [|e tr1 IH]; simpl; [reflexivity|].
  destruct e; simpl; rewrite ?IH; reflexivity.
Qed.

Lemma failing_retried y : failing y -> retried y = true.
Proof.
  destruct y as [response|error]; simpl.
  - intros H. unfold ok.
    replace (status response <=? 299) with false by (symmetry; apply Z.leb_gt; lia).
    replace (status response <? 500) with false by (symmetry; apply Z.ltb_ge; lia).
    rewrite !andb_false_r. reflexivity.
  - intros H. destruct (String.eqb_spec (name error) "AbortError"); [contradiction|reflexivity].
Qed.

Lemma exceeds_aborts t w : exceeds t w -> awaitFetch t w = Rejects abortError.
Proof.
  destruct w as [ms s|]; simpl; [|reflexivity].
  intros H. replace (ms <? t) with false by (symmetry; apply Z.ltb_ge; lia).
  reflexivity.
Qed.

Section Rounds.

Variable net : nat -> Wire.
Variables r d t : Z.

Local Abbreviation rounds := (loop net r d t).

(** While the outcomes are ones the loop goes on after and rounds are
    left, each round is a call and a wait. *)
Lemma loop_retried k : forall n i le,
  (forall j, (i <= j < i + k)%nat -> retried (awaitFetch t (net j)) = true) ->
  Z.of_nat (i + k) <= r ->
  exists le' pre,
    rounds (k + n)%nat i le
    = (fst (rounds n (i + k)%nat le'), pre ++ snd (rounds n (i + k)%nat le'))
    /\ quiet pre = backoff d i k.
Proof.
  induction k as [|k IH]; intros n i le Hretried Hle.
  - exists le, []. rewrite Nat.add_0_r. simpl.
    destruct (rounds n i le); auto.
  - assert (Hi : retried (awaitFetch t (net i)) = true) by (apply Hretried; lia).
    assert (Hlt : (Z.of_nat i <? r) = true) by (apply Z.ltb_lt; lia).
    destruct (IH n (S i) le) as (l1 & pre1 & E1 & Q1);
      [intros j Hj; apply Hretried; lia | lia |].
    change (S k + n)%nat with (S (k + n)). cbn [loop].
    destruct (awaitFetch t (net i)) as [response|error]; simpl in Hi.
    + apply negb_true_iff in Hi. rewrite Hi, Hlt, E1.
      replace (i + S k)%nat with (S i + k)%nat by lia.
      exists l1, (Fetch :: warnStatus d response
                    :: Sleep (d * (Z.of_nat i + 1)) :: pre1).
      split; [reflexivity|]. simpl. rewrite Q1, backoff_S. reflexivity.
    + apply negb_true_iff in Hi. rewrite Hi, Hlt.
      destruct (IH n (S i) (Some error)) as (l2 & pre2 & E2 & Q2);
        [intros j Hj; apply Hretried; lia | lia |].
      rewrite E2. replace (i + S k)%nat with (S i + k)%nat by lia.
      exists l2, (Fetch :: warnError d error
                    :: Sleep (d * (Z.of_nat i + 1)) :: pre2).
      split; [reflexivity|]. simpl. rewrite Q2, backoff_S. reflexivity.
Qed.

(** Line 35. *)
Lemma loop_returns n i le response :
  awaitFetch t (net i) = Resolves response ->
  ok response || ((400 <=? status response) && (status response <? 500)) = true ->
  rounds (S n) i le = (Returns response, [Fetch]).
Proof. intros E H. cbn [loop]. rewrite E, H. reflexivity. Qed.

(** Lines 50-54. *)
Lemma loop_aborted n i le error :
  awaitFetch t (net i) = Rejects error ->
  name error = "AbortError" ->
  rounds (S n) i le = (Throws timeoutMessage, [Fetch]).
Proof. intros E H. cbn [loop]. rewrite E, H. reflexivity. Qed.

(** Line 45, and lines 57-69 in the last round. *)
Lemma loop_last i le :
  r <= Z.of_nat i ->
  retried (awaitFetch t (net i)) = true ->
  rounds 1 i le
  = (match awaitFetch t (net i) with
     | Resolves response => Returns response
     | Rejects error => Throws (Js.orStr (message error) networkMessage)
     end, [Fetch]).
Proof.
  intros Hge Hi. cbn [loop].
  assert (Hlt : (Z.of_nat i <? r) = false) by (apply Z.ltb_ge; lia).
  destruct (awaitFetch t (net i)) as [response|error]; simpl in Hi;
    apply negb_true_iff in Hi; rewrite Hi, Hlt; reflexivity.
Qed.

End Rounds.

(** A round [k] that the loop reaches, and in which it stops with [c],
    decides the call. *)
Lemma decided_at net options k c :
  Z.of_nat k <= retriesOf options ->
  (forall j, (j < k)%nat -> retried (attempt net options j) = true) ->
  (forall le,
     loop net (retriesOf options) (retryDelayOf options) (timeoutOf options)
       (Z.to_nat (retriesOf options + 1) - k) k le = (c, [Fetch])) ->
  fst (fetchWithRetry net options) = c
  /\ endsAtRound options k (snd (fetchWithRetry net options)).
Proof.
  intros Hk Hretried Hstop. unfold fetchWithRetry, endsAtRound.
  replace (Z.to_nat (retriesOf options + 1))
    with (k + (Z.to_nat (retriesOf options + 1) - k))%nat by lia.
  destruct (loop_retried net (retriesOf options) (retryDelayOf options)
              (timeoutOf options) k
              (Z.to_nat (retriesOf options + 1) - k) 0 None)
    as (le' & pre & E & Q).
  - intros j Hj. apply Hretried. lia.
  - lia.
  - rewrite E. simpl. rewrite (Hstop le'). simpl.
    split; [reflexivity|]. rewrite quiet_app, Q. reflexivity.
Qed.

Lemma rounds_left options k :
  Z.of_nat k <= retriesOf options ->
  exists n, (Z.to_nat (retriesOf options + 1) - k)%nat = S n.
Proof. intros H. exists (Z.to_nat (retriesOf options) - k)%nat. lia. Qed.

(** C1, as amended.  With [retries = r >= 0] and an endpoint that fails
    on every attempt (a 5xx response or a failure of the network), the
    function makes [r + 1] calls, waits [retryDelay * (i + 1)] after the
    call of round [i] for each [i < r] (in all
    [retryDelay * (1 + ... + r)]), and then settles: with the last
    response, or with an error that carries the last failure's message,
    the fixed text of line 68 standing in for an empty one. *)
Theorem permanent_failure_exhausts_retries net options :
  0 <= retriesOf options ->
  (forall i, Z.of_nat i <= retriesOf options -> failing (attempt net options i)) ->
  let r := Z.to_nat (retriesOf options) in
  let result := fetchWithRetry net options in
  endsAtRound options r (snd result)
  /\ fetches (snd result) = S r
  /\ sleeps (snd result)
     = List.map (fun i => retryDelayOf options * (Z.of_nat i + 1)) (seq 0 r)
  /\ totalDelay (snd result)
     = retryDelayOf options * (retriesOf options * (retriesOf options + 1) / 2)
  /\ fst result
     = match attempt net options r with
       | Resolves response => Returns response
       | Rejects error => Throws (Js.orStr (message error) networkMessage)
       end.
Proof.
  intros Hr Hfail r result.
  assert (Hlast : retried (attempt net options r) = true)
    by (apply failing_retried, Hfail; lia).
  destruct (decided_at net options r
              (match attempt net options r with
               | Resolves response => Returns response
               | Rejects error => Throws (Js.orStr (message error) networkMessage)
               end)) as [Hc Htr].
  - lia.
  - intros j Hj. apply failing_retried, Hfail. lia.
  - intros le. replace (Z.to_nat (retriesOf options + 1) - r)%nat with 1%nat by lia.
    apply loop_last; [lia | exact Hlast].
  - fold result in Hc, Htr. unfold endsAtRound in Htr.
    assert (Hs : sleeps (snd result)
                 = List.map (fun i => retryDelayOf options * (Z.of_nat i + 1)) (seq 0 r)).
    { rewrite <- sleeps_quiet, Htr, sleeps_app, sleeps_backoff. simpl.
      apply app_nil_r. }
    split; [exact Htr|]. split.
    { rewrite <- fetches_quiet, Htr, fetches_app, fetches_backoff. simpl. lia. }
    split; [exact Hs|]. split; [|exact Hc].
    unfold totalDelay. rewrite Hs, sum_backoff.
    replace (Z.of_nat r) with (retriesOf options) by lia. reflexivity.
Qed.

(** C1 at a 503 on every attempt, under the defaults. *)
Lemma permanent_failure_witness :
  0 <= retriesOf Inputs.defaults
  /\ (forall i, Z.of_nat i <= retriesOf Inputs.defaults ->
       failing (attempt (Inputs.always Inputs.r503) Inputs.defaults i))
  /\ fetches (snd (fetchWithRetry (Inputs.always Inputs.r503) Inputs.defaults)) = 4%nat
  /\ totalDelay (snd (fetchWithRetry (Inputs.always Inputs.r503) Inputs.defaults)) = 6000
  /\ fst (fetchWithRetry (Inputs.always Inputs.r503) Inputs.defaults)
     = Returns Inputs.r503.
Proof.
  assert (H0 : 0 <= retriesOf Inputs.defaults) by (vm_compute; discriminate).
  assert (H1 : forall i, Z.of_nat i <= retriesOf Inputs.defaults ->
               failing (attempt (Inputs.always Inputs.r503) Inputs.defaults i))
    by (intros i _; vm_compute; split; discriminate).
  pose proof (permanent_failure_exhausts_retries
                (Inputs.always Inputs.r503) Inputs.defaults H0 H1) as H.
  simpl in H. destruct H as (_ & Hf & _ & Hd & Hc).
  split; [exact H0|]. split; [exact H1|].
  split; [exact Hf|]. split; [exact Hd|exact Hc].
Defined.

(** C1 as stated fails: when the network fails with an error whose
    message is empty, the final error does not carry that outcome but
    the text of line 68. *)
Lemma permanent_failure_empty_message :
  0 <= retriesOf Inputs.once
  /\ (forall i, failing (attempt Inputs.unplugged Inputs.once i))
  /\ fst (fetchWithRetry Inputs.unplugged Inputs.once)
     = Throws "Network error. Please check your connection or try again in a moment."
  /\ ~ settlesWith (fst (fetchWithRetry Inputs.unplugged Inputs.once))
        (attempt Inputs.unplugged Inputs.once
           (Z.to_nat (retriesOf Inputs.once))).
Proof.
  split; [vm_compute; discriminate|].
  split; [intros i; vm_compute; discriminate|].
  split; [reflexivity|].
  vm_compute. discriminate.
Qed.

(** A response whose status lies in [200,299] ([response.ok], line 34)
    is returned by the round that received it: the call of that round
    is the last thing the function does, with no wait and no call
    after it. *)
Theorem ok_response_returned_at_once net options k response :
  Z.of_nat k <= retriesOf options ->
  (forall j, (j < k)%nat -> retried (attempt net options j) = true) ->
  attempt net options k = Resolves response ->
  200 <= status response <= 299 ->
  fst (fetchWithRetry net options) = Returns response
  /\ endsAtRound options k (snd (fetchWithRetry net options)).
Proof.
  intros Hk Hretried E Hstatus.
  apply decided_at; [exact Hk | exact Hretried |].
  intros le. destruct (rounds_left options k Hk) as [n ->].
  apply loop_returns; [exact E|].
  unfold ok. apply orb_true_iff. left. apply andb_true_iff.
  split; apply Z.leb_le; lia.
Qed.

(** A 503 followed by a 200: one wait, two calls, and the 200 is
    returned by the round that received it. *)
Lemma ok_response_witness :
  Z.of_nat 1 <= retriesOf Inputs.defaults
  /\ (forall j, (j < 1)%nat ->
       retried (attempt (Inputs.thenOk Inputs.r503) Inputs.defaults j) = true)
  /\ attempt (Inputs.thenOk Inputs.r503) Inputs.defaults 1 = Resolves Inputs.r200
  /\ 200 <= status Inputs.r200 <= 299
  /\ fst (fetchWithRetry (Inputs.thenOk Inputs.r503) Inputs.defaults)
     = Returns Inputs.r200
  /\ endsAtRound Inputs.defaults 1
       (snd (fetchWithRetry (Inputs.thenOk Inputs.r503) Inputs.defaults)).
Proof.
  assert (H0 : Z.of_nat 1 <= retriesOf Inputs.defaults) by (vm_compute; discriminate).
  assert (H1 : forall j, (j < 1)%nat ->
               retried (attempt (Inputs.thenOk Inputs.r503) Inputs.defaults j) = true).
  { intros j Hj. destruct j as [|j]; [reflexivity|lia]. }
  assert (H2 : attempt (Inputs.thenOk Inputs.r503) Inputs.defaults 1
               = Resolves Inputs.r200) by reflexivity.
  assert (H3 : 200 <= status Inputs.r200 <= 299) by (vm_compute; split; discriminate).
  repeat (split; [assumption|]).
  exact (ok_response_returned_at_once _ _ 1%nat _ H0 H1 H2 H3).
Defined.

(** C2 fails on the code at a 304: the status lies in [200,399], but
    the response is neither [ok] nor a 4xx, so line 34 does not return
    it.  It falls into the branch that lines 33 and 38 reserve for
    server errors: the function warns "Fetch failed (304)", waits
    1000 ms and calls again, and returns the 200 of the second call,
    not the 304 of the first. *)
Theorem redirect_status_is_retried :
  200 <= status Inputs.r304 <= 399
  /\ Z.of_nat 0 <= retriesOf Inputs.defaults
  /\ attempt (Inputs.thenOk Inputs.r304) Inputs.defaults 0 = Resolves Inputs.r304
  /\ fetchWithRetry (Inputs.thenOk Inputs.r304) Inputs.defaults
     = (Returns Inputs.r200,
        [Fetch; Warn ["Fetch failed (304), retrying in 1000ms..."];
         Sleep 1000; Fetch])
  /\ fst (fetchWithRetry (Inputs.thenOk Inputs.r304) Inputs.defaults)
     <> Returns Inputs.r304
  /\ ~ endsAtRound Inputs.defaults 0
        (snd (fetchWithRetry (Inputs.thenOk Inputs.r304) Inputs.defaults)).
Proof.
  split; [vm_compute; split; discriminate|].
  split; [vm_compute; discriminate|].
  split; [reflexivity|]. split; [reflexivity|].
  split; vm_compute; discriminate.
Qed.

(** C8.  A response whose status lies in [400,499] is returned by the
    round that received it, in particular by the first: the call of
    that round is the last thing the function does, with no wait and no
    call after it. *)
Theorem client_error_returned_at_once net options k response :
  Z.of_nat k <= retriesOf options ->
  (forall j, (j < k)%nat -> retried (attempt net options j) = true) ->
  attempt net options k = Resolves response ->
  400 <= status response <= 499 ->
  fst (fetchWithRetry net options) = Returns response
  /\ endsAtRound options k (snd (fetchWithRetry net options)).
Proof.
  intros Hk Hretried E Hstatus.
  apply decided_at; [exact Hk | exact Hretried |].
  intros le. destruct (rounds_left options k Hk) as [n ->].
  apply loop_returns; [exact E|].
  apply orb_true_iff. right. apply andb_true_iff.
  split; [apply Z.leb_le | apply Z.ltb_lt]; lia.
Qed.

(** C8 at a 404 on the first attempt: a single call, no wait. *)
Lemma client_error_witness :
  Z.of_nat 0 <= retriesOf Inputs.defaults
  /\ (forall j, (j < 0)%nat ->
       retried (attempt (Inputs.always Inputs.r404) Inputs.defaults j) = true)
  /\ attempt (Inputs.always Inputs.r404) Inputs.defaults 0 = Resolves Inputs.r404
  /\ 400 <= status Inputs.r404 <= 499
  /\ fst (fetchWithRetry (Inputs.always Inputs.r404) Inputs.defaults)
     = Returns Inputs.r404
  /\ snd (fetchWithRetry (Inputs.always Inputs.r404) Inputs.defaults) = [Fetch].
Proof.
  assert (H0 : Z.of_nat 0 <= retriesOf Inputs.defaults) by (vm_compute; discriminate).
  assert (H1 : forall j, (j < 0)%nat ->
               retried (attempt (Inputs.always Inputs.r404) Inputs.defaults j) = true)
    by (intros j Hj; lia).
  assert (H2 : attempt (Inputs.always Inputs.r404) Inputs.defaults 0
               = Resolves Inputs.r404) by reflexivity.
  assert (H3 : 400 <= status Inputs.r404 <= 499) by (vm_compute; split; discriminate).
  repeat (split; [assumption|]).
  split; [|reflexivity].
  exact (proj1 (client_error_returned_at_once _ _ 0%nat _ H0 H1 H2 H3)).
Defined.

(** C3.  When the call of a round does not settle within [timeout]
    milliseconds, the function throws the fixed timeout text at once:
    that call is the last thing it does, however many rounds are
    left. *)
Theorem timeout_is_final net options k :
  Z.of_nat k <= retriesOf options ->
  (forall j, (j < k)%nat -> retried (attempt net options j) = true) ->
  exceeds (timeoutOf options) (net k) ->
  fst (fetchWithRetry net options)
  = Throws "Request timeout. The server might be waking up (this can take up to 60 seconds on free tier). Please try again."
  /\ endsAtRound options k (snd (fetchWithRetry net options)).
Proof.
  intros Hk Hretried Hslow.
  apply decided_at; [exact Hk | exact Hretried |].
  intros le. destruct (rounds_left options k Hk) as [n ->].
  apply (loop_aborted _ _ _ _ _ _ _ abortError); [|reflexivity].
  apply exceeds_aborts, Hslow.
Qed.

(** C3 at a 503 followed by an answer that takes 75 seconds: the second
    call is the last, with two retries left. *)
Lemma timeout_witness :
  Z.of_nat 1 <= retriesOf Inputs.defaults
  /\ (forall j, (j < 1)%nat ->
       retried (attempt Inputs.asleep Inputs.defaults j) = true)
  /\ exceeds (timeoutOf Inputs.defaults) (Inputs.asleep 1%nat)
  /\ fst (fetchWithRetry Inputs.asleep Inputs.defaults) = Throws timeoutMessage
  /\ fetches (snd (fetchWithRetry Inputs.asleep Inputs.defaults)) = 2%nat.
Proof.
  assert (H0 : Z.of_nat 1 <= retriesOf Inputs.defaults) by (vm_compute; discriminate).
  assert (H1 : forall j, (j < 1)%nat ->
               retried (attempt Inputs.asleep Inputs.defaults j) = true).
  { intros j Hj. destruct j as [|j]; [reflexivity|lia]. }
  assert (H2 : exceeds (timeoutOf Inputs.defaults) (Inputs.asleep 1%nat))
    by reflexivity.
  repeat (split; [assumption|]).
  split; [|reflexivity].
  exact (proj1 (timeout_is_final _ _ 1%nat H0 H1 H2)).
Defined.

(** [fetchJSON] on a response that is not [ok]: the error carries the
    preferred message, whatever the body, unless the body parses to
    [null]. *)
Lemma fetchJSON_error_message net options response :
  fst (fetchWithRetry net options) = Returns response ->
  ok response = false ->
  json response <> Some Js.Null ->
  json response <> Some Js.Undefined ->
  fst (fetchJSON net options)
  = Fails (preferredMessage (json response) (status response)).
Proof.
  intros E Hok Hnull Hundef. unfold fetchJSON, preferredMessage.
  destruct (fetchWithRetry net options) as [c tr]. simpl in E. subst c.
  rewrite Hok. simpl negb. cbv iota.
  destruct (json response) as [[| |b|n|s|items|fields]|]; try congruence;
    simpl; try reflexivity.
  destruct (Js.truthy (Js.assoc "error" fields)); [reflexivity|].
  destruct (Js.truthy (Js.assoc "message" fields)); reflexivity.
Qed.

(** C4 fails on the code at a body that is the JSON literal [null]: the
    response is a 404 that [fetchWithRetry] returns, and [fetchJSON]
    ends in the TypeError of reading [error] of [null] (line 82), not in
    an error that says "HTTP error! status: 404". *)
Theorem null_body_throws_type_error :
  fst (fetchWithRetry (Inputs.always Inputs.r404null) Inputs.defaults)
  = Returns Inputs.r404null
  /\ ok Inputs.r404null = false
  /\ preferredMessage (json Inputs.r404null) (status Inputs.r404null)
     = "HTTP error! status: 404"
  /\ fst (fetchJSON (Inputs.always Inputs.r404null) Inputs.defaults)
     = FailsTypeError.
Proof. repeat split; reflexivity. Qed.

End FetchWithRetryFacts.

(** ** The interview page *)

Module PageFacts.
Import Page PageInputs.

Ltac case_if :=
  match goal with
  | |- context [if ?b then _ else _] => destruct b eqn:?
  | |- context [match ?o with Some _ => _ | None => _ end] => destruct o eqn:?
  end.

Lemma effect_ticking prev next : exists b, effect prev next = setTicking b next.
Proof.
  unfold effect. destruct (depsChanged prev next); [eexists; reflexivity|].
  exists (ticking next). destruct next; reflexivity.
Qed.

Lemma indexOk_effect prev next : indexOk next -> indexOk (effect prev next).
Proof. destruct (effect_ticking prev next) as [b ->]. exact (fun H => H). Qed.

Lemma indexOk_nextQuestion s : indexOk s -> indexOk (nextQuestion s).
Proof.
  unfold indexOk, nextQuestion. intros [H0 H1].
  destruct (currentQuestionIndex s <? Z.of_nat (length (questions s)) - 1) eqn:E; simpl.
  - apply Z.ltb_lt in E. split; [lia|]. intros _. right. lia.
  - split; [exact H0|]. discriminate.
Qed.

Lemma indexOk_resume a r s : indexOk s -> indexOk (fst (resume a r s)).
Proof.
  unfold indexOk. intros [H0 H1].
  destruct a, r as [[|] [data|]|]; simpl; auto.
  unfold generateSucceeded.
  destruct (data_questionSetId data) as [i|]; [destruct (String.eqb i "")|];
    simpl; (split; [exact H0|discriminate]).
Qed.

Lemma indexOk_fire ev w : indexOk (state w) -> indexOk (state (fst (fire ev w))).
Proof.
  intros H. pose proof H as [H0 H1].
  destruct ev; unfold fire, idle, commit; cbn [fst state];
    repeat case_if; cbn [fst state]; try exact H; try apply indexOk_effect;
    try exact H.
  - unfold handleGenerateQuestions. repeat case_if; exact H.
  - unfold indexOk; simpl. split; [lia|auto].
  - unfold indexOk; simpl. split; [lia|discriminate].
  - unfold submitAnswer. repeat case_if; exact H.
  - apply indexOk_nextQuestion, H.
  - apply indexOk_resume, H.
Qed.

Lemma reachable_indexOk w : reachable w -> indexOk (state w).
Proof.
  induction 1 as [user|ev w Hw IH].
  - unfold indexOk; simpl. split; [lia|discriminate].
  - apply indexOk_fire, IH.
Qed.

Lemma reachable_run evs w : reachable w -> reachable (run evs w).
Proof.
  revert w; induction evs as [|ev evs IH]; intros w Hw; [exact Hw|].
  apply IH, reachable_fire, Hw.
Qed.

(** *** Generations in flight *)

Lemma count_app p l1 l2 : count p (l1 ++ l2) = (count p l1 + count p l2)%nat.
Proof.
  induction l1 as [|a l1 IH]; simpl; [reflexivity|].
  destruct (p a); rewrite IH; reflexivity.
Qed.

Lemma count_delete p l : forall n a,
  l !! n = Some a ->
  count p l = (count p (delete n l) + (if p a then 1 else 0))%nat.
Proof.
  induction l as [|b l IH]; intros n a E; [discriminate|].
  destruct n as [|n]; simpl in *.
  - injection E as ->. destruct (p a); lia.
  - rewrite (IH n a E). destruct (p b); lia.
Qed.

Lemma isLoading_effect prev next : isLoading (effect prev next) = isLoading next.
Proof. destruct (effect_ticking prev next) as [b ->]. reflexivity. Qed.

(** Adding handlers that do not generate, to a state of the same
    [isLoading], keeps the count right. *)
Lemma loadingOk_commit_other w s' started :
  loadingOk w ->
  isLoading s' = isLoading (state w) ->
  count generating (List.map snd started) = O ->
  loadingOk (fst (commit w (awaiting w) (s', started))).
Proof.
  unfold loadingOk, generationsInFlight, commit. cbn [fst snd state awaiting].
  intros H E C. rewrite isLoading_effect, count_app, C, E. lia.
Qed.

Lemma loadingOk_fire ev w : loadingOk w -> loadingOk (fst (fire ev w)).
Proof.
  intros H.
  destruct ev; unfold fire, idle; cbn [fst];
    repeat case_if; try exact H;
    try (apply loadingOk_commit_other; [exact H | reflexivity | reflexivity]).
  - (* ClickGenerate *)
    apply andb_prop in Heqb as [_ Hen]. apply negb_true_iff in Hen.
    unfold generateDisabled in Hen.
    apply orb_false_elim in Hen as [Hen Hco].
    apply orb_false_elim in Hen as [Hlo Hjo].
    unfold handleGenerateQuestions. rewrite Hjo, Hco. simpl orb. cbv iota.
    unfold loadingOk, generationsInFlight in *. rewrite Hlo in H.
    destruct (session w) as [u|]; unfold commit; cbn [fst snd state awaiting];
      rewrite isLoading_effect, count_app, H; reflexivity.
  - (* ClickSubmit *)
    unfold submitAnswer. case_if;
      apply loadingOk_commit_other; solve [exact H | reflexivity].
  - (* ClickNext *)
    apply loadingOk_commit_other; [exact H | | reflexivity].
    unfold nextQuestion. case_if; reflexivity.
  - (* Settle *)
    rename Heqo into E.
    unfold loadingOk, generationsInFlight in *.
    rewrite (count_delete generating _ _ _ E) in H.
    unfold commit; cbn [fst snd state awaiting]. rewrite isLoading_effect, count_app.
    destruct a as [closure u| | |], r as [[|] [data|]|]; simpl in *;
      try (unfold generateSucceeded; repeat case_if; simpl);
      destruct (isLoading (state w)); lia.
Qed.

Lemma reachable_loadingOk w : reachable w -> loadingOk w.
Proof.
  induction 1 as [user|ev w Hw IH]; [reflexivity|].
  apply loadingOk_fire, IH.
Qed.

(** *** The interval *)

Lemma stepEqb_eq a b : stepEqb a b = true -> a = b.
Proof. destruct a, b; simpl; congruence. Qed.

Lemma tickingOk_effect prev next :
  tickingOk prev ->
  (ticking next = true -> ticking prev = true) ->
  tickingOk (effect prev next).
Proof.
  unfold effect, tickingOk. intros Hp Ht.
  destruct (depsChanged prev next) eqn:E; simpl.
  - intros H. apply andb_prop in H as [H1 H2].
    split; [apply stepEqb_eq, H1 | apply negb_true_iff, H2].
  - unfold depsChanged in E.
    apply orb_false_elim in E as [E E3]. apply orb_false_elim in E as [E1 _].
    apply negb_false_iff, stepEqb_eq in E1. apply negb_false_iff, eqb_prop in E3.
    intros H. rewrite <- E1, <- E3. apply Hp, Ht, H.
Qed.

Lemma tickingOk_fire ev w : tickingOk (state w) -> tickingOk (state (fst (fire ev w))).
Proof.
  intros H.
  destruct ev; unfold fire, idle, commit; cbn [fst state];
    repeat case_if; cbn [fst state]; try exact H;
    apply tickingOk_effect; try exact H; try (exact (fun E => E)).
  - unfold handleGenerateQuestions. repeat case_if; exact (fun E => E).
  - unfold submitAnswer. repeat case_if; simpl; [exact (fun E => E)|discriminate].
  - unfold nextQuestion. case_if; exact (fun E => E).
  - destruct a, r as [[|] [data|]|]; simpl; try exact (fun E => E).
    unfold generateSucceeded. repeat case_if; exact (fun E => E).
Qed.

Lemma reachable_tickingOk w : reachable w -> tickingOk (state w).
Proof.
  induction 1 as [user|ev w Hw IH]; [discriminate|].
  apply tickingOk_fire, IH.
Qed.

(** After a click on a reset button no interval is live. *)
Lemma reset_stops_interval w :
  reachable w -> ticking (state (fst (fire ClickReset w))) = false.
Proof.
  intros Hw.
  pose proof (reachable_tickingOk _ (reachable_fire ClickReset w Hw)) as H.
  destruct (ticking (state (fst (fire ClickReset w)))) eqn:E; [|reflexivity].
  destruct (H E) as [Hm _]. revert Hm.
  unfold fire, idle, commit. case_if; cbn [fst state].
  - destruct (effect_ticking (state w) (resetToHome (state w))) as [b ->].
    discriminate.
  - apply negb_false_iff, stepEqb_eq in Heqb. rewrite Heqb. discriminate.
Qed.

(** *** The claims *)

(** C5, as amended.  In every state the page can reach, while the mock
    interview runs [currentQuestionIndex] is a position of [questions],
    unless [questions] is empty, in which case the index is 0. *)
Theorem mock_index_valid_unless_empty w :
  reachable w ->
  currentStep (state w) = Mock ->
  0 <= currentQuestionIndex (state w) < Z.of_nat (length (questions (state w)))
  \/ (questions (state w) = [] /\ currentQuestionIndex (state w) = 0).
Proof.
  intros Hw Hmock. destruct (reachable_indexOk w Hw) as [H0 H1].
  destruct (H1 Hmock) as [Hz|Hlt]; [|left; lia].
  destruct (questions (state w)) as [|q qs]; [right; auto|].
  left. rewrite Hz. simpl length. lia.
Qed.

(** C5 on the second of two questions. *)
Lemma mock_index_witness :
  reachable secondQuestion
  /\ currentStep (state secondQuestion) = Mock
  /\ 0 <= currentQuestionIndex (state secondQuestion)
        < Z.of_nat (length (questions (state secondQuestion))).
Proof.
  assert (Hr : reachable secondQuestion) by apply reachable_run, reachable_mount.
  assert (Hm : currentStep (state secondQuestion) = Mock) by reflexivity.
  split; [exact Hr|]. split; [exact Hm|].
  destruct (mock_index_valid_unless_empty secondQuestion Hr Hm) as [H|[H _]];
    [exact H | vm_compute in H; discriminate H].
Defined.

(** C5 as stated fails: after a generation that stored no question the
    mock interview starts all the same, and the index 0 is then not a
    position of [questions]. *)
Lemma empty_mock_has_no_valid_index :
  reachable emptyMock
  /\ currentStep (state emptyMock) = Mock
  /\ questions (state emptyMock) = []
  /\ ~ (0 <= currentQuestionIndex (state emptyMock)
           < Z.of_nat (length (questions (state emptyMock)))).
Proof.
  split; [apply reachable_run, reachable_mount|].
  split; [reflexivity|]. split; [reflexivity|].
  vm_compute. intros [_ H]. discriminate H.
Qed.

(** C6.  While [isLoading] is true the generate button is disabled, so
    a click on it runs no handler: no request goes out and nothing
    changes.  In every state the page can reach, [isLoading] is true
    exactly while one generation is in flight, and there is never more
    than one. *)
Theorem second_generate_is_dropped w :
  reachable w ->
  (isLoading (state w) = true -> fire ClickGenerate w = (w, []))
  /\ generationsInFlight w = (if isLoading (state w) then 1 else 0)%nat
  /\ (generationsInFlight w <= 1)%nat.
Proof.
  intros Hw. pose proof (reachable_loadingOk w Hw) as H. unfold loadingOk in H.
  split; [|split; [exact H|rewrite H; destruct (isLoading (state w)); lia]].
  intros Hl. unfold fire, generateDisabled. rewrite Hl. simpl.
  rewrite andb_false_r. reflexivity.
Qed.

(** C6 on the page while its generation is under way. *)
Lemma second_generate_witness :
  reachable loading
  /\ isLoading (state loading) = true
  /\ fire ClickGenerate loading = (loading, [])
  /\ generationsInFlight loading = 1%nat.
Proof.
  assert (Hr : reachable loading) by apply reachable_run, reachable_mount.
  assert (Hl : isLoading (state loading) = true) by reflexivity.
  split; [exact Hr|]. split; [exact Hl|].
  split; [exact (proj1 (second_generate_is_dropped loading Hr) Hl)|].
  exact (proj1 (proj2 (second_generate_is_dropped loading Hr))).
Defined.

(** The gate of C6 is the button: the handler itself, run while
    [isLoading] is true, sends a request. *)
Remark handler_has_no_gate :
  isLoading (state loading) = true
  /\ snd (handleGenerateQuestions None (state loading))
     = [(generateRequest None (state loading), GenerateFetch)].
Proof. split; reflexivity. Qed.

(** C7.  [submitAnswer] on an answer that is empty or only white space
    sets the validation error and does nothing else: no request, and
    every other state variable as it was, [currentStep] and [feedback]
    among them. *)
Theorem blank_answer_is_rejected s :
  Js.blank (currentAnswer s) = true ->
  submitAnswer s = (setError "Please provide an answer before submitting" s, [])
  /\ snd (submitAnswer s) = []
  /\ error (fst (submitAnswer s)) = "Please provide an answer before submitting"
  /\ currentStep (fst (submitAnswer s)) = currentStep s
  /\ feedback (fst (submitAnswer s)) = feedback s.
Proof.
  intros H. unfold submitAnswer. rewrite H. repeat split.
Qed.

(** The page itself never runs the handler on a blank answer: the
    submit button is disabled then (line 752). *)
Remark blank_submit_click_is_dropped w :
  Js.blank (currentAnswer (state w)) = true -> fire ClickSubmit w = (w, []).
Proof.
  intros H. unfold fire, submitDisabled. rewrite H.
  rewrite orb_true_r. simpl negb. rewrite andb_false_r. reflexivity.
Qed.

(** C7 in the mock interview, with three spaces typed. *)
Lemma blank_answer_witness :
  Js.blank (currentAnswer blankAnswer) = true
  /\ snd (submitAnswer blankAnswer) = []
  /\ currentStep (fst (submitAnswer blankAnswer)) = Mock
  /\ feedback (fst (submitAnswer blankAnswer)) = "".
Proof.
  assert (H : Js.blank (currentAnswer blankAnswer) = true) by reflexivity.
  destruct (blank_answer_is_rejected blankAnswer H) as (_ & Hs & _ & Hc & Hf).
  split; [exact H|]. split; [exact Hs|].
  split; [rewrite Hc; reflexivity | rewrite Hf; reflexivity].
Defined.

(** C9.  [resetToHome] gives, from any state, the input step with no
    question, index 0, and the answer, the feedback and its panel, the
    follow-up, the error, the timer and the two text fields cleared;
    running it again changes nothing. *)
Theorem reset_clears_session s :
  currentStep (resetToHome s) = Input
  /\ questions (resetToHome s) = []
  /\ currentQuestionIndex (resetToHome s) = 0
  /\ currentAnswer (resetToHome s) = ""
  /\ feedback (resetToHome s) = ""
  /\ showFeedback (resetToHome s) = false
  /\ followUpQuestion (resetToHome s) = ""
  /\ error (resetToHome s) = ""
  /\ timer (resetToHome s) = 0
  /\ jobRole (resetToHome s) = ""
  /\ company (resetToHome s) = ""
  /\ resetToHome (resetToHome s) = resetToHome s.
Proof. destruct s. vm_compute. repeat split. Qed.

(** C10.  When the feedback request succeeds, the feedback stored is
    the reply's [feedback] field, or the fixed fallback text when that
    field is absent or empty: it is never empty, and the panel shows. *)
Theorem stored_feedback_is_never_empty data s :
  let s' := fst (resume FeedbackFetch (Replied true (Some data)) s) in
  feedback s' <> ""
  /\ feedback s'
     = match data_feedback data with
       | Some text =>
           if String.eqb text ""
           then "Good response! Keep practicing to improve further."
           else text
       | None => "Good response! Keep practicing to improve further."
       end
  /\ showFeedback s' = true
  /\ isSubmittingAnswer s' = false
  /\ snd (resume FeedbackFetch (Replied true (Some data)) s) = [].
Proof.
  simpl. split; [|repeat split].
  destruct (data_feedback data) as [text|]; simpl; [|discriminate].
  unfold Js.orStr. destruct (String.eqb_spec text ""); [discriminate|assumption].
Qed.

(** C10 at a reply whose [feedback] is the empty string. *)
Lemma stored_feedback_witness :
  feedback (fst (resume FeedbackFetch (Replied true (Some emptyFeedback)) blankAnswer))
  = "Good response! Keep practicing to improve further.".
Proof.
  exact (proj1 (proj2 (stored_feedback_is_never_empty emptyFeedback blankAnswer))).
Defined.

End PageFacts.

(** ** The request client, on any network *)

Module FetchWithRetryRoundsFacts.
Import FetchWithRetry FetchWithRetryRounds FetchWithRetryFacts.

Section AnyNetwork.

Variable net : nat -> Wire.
Variables r d t : Z.

(** The loop, from any round on: some rounds that are retried, then one
    whose outcome settles the call; an outcome the loop would retry
    settles it only in the round numbered [r]. *)
Lemma loop_shape n : forall i le,
  Z.of_nat (S n + i) = r + 1 ->
  exists k,
    (k <= n)%nat
    /\ quiet (snd (loop net r d t (S n) i le)) = backoff d i k ++ [Fetch]
    /\ (forall j, (i <= j < i + k)%nat -> retried (awaitFetch t (net j)) = true)
    /\ fst (loop net r d t (S n) i le) = conclude (awaitFetch t (net (i + k)%nat))
    /\ (retried (awaitFetch t (net (i + k)%nat)) = true -> Z.of_nat (i + k) = r).
Proof.
  induction n as [|n IH]; intros i le Hn.
  - exists 0%nat. rewrite Nat.add_0_r. cbn [loop conclude].
    assert (Hlt : (Z.of_nat i <? r) = false) by (apply Z.ltb_ge; lia).
    split; [lia|].
    destruct (awaitFetch t (net i)) as [response|error]; cbn [retried conclude].
    + destruct (ok response || ((400 <=? status response) && (status response <? 500)));
        rewrite ?Hlt; simpl; repeat split; intros; try first [lia | discriminate].
    + destruct (String.eqb (name error) "AbortError"); rewrite ?Hlt; simpl;
        repeat split; intros; try first [lia | discriminate].
  - assert (Hlt : (Z.of_nat i <? r) = true) by (apply Z.ltb_lt; lia).
    assert (Hstep : forall le',
      exists k, (k <= S n)%nat
        /\ quiet (Fetch :: Sleep (d * (Z.of_nat i + 1))
                    :: snd (loop net r d t (S n) (S i) le'))
           = backoff d i k ++ [Fetch]
        /\ (retried (awaitFetch t (net i)) = true ->
            forall j, (i <= j < i + k)%nat -> retried (awaitFetch t (net j)) = true)
        /\ fst (loop net r d t (S n) (S i) le')
           = conclude (awaitFetch t (net (i + k)%nat))
        /\ (retried (awaitFetch t (net (i + k)%nat)) = true -> Z.of_nat (i + k) = r)).
    { intros le'. destruct (IH (S i) le') as (k & Hk & Hq & Hr & Hc & Hl); [lia|].
      exists (S k). replace (i + S k)%nat with (S i + k)%nat by lia.
      split; [lia|]. split; [|split; [|split; [exact Hc|exact Hl]]].
      - rewrite backoff_S. cbn [quiet]. rewrite Hq. reflexivity.
      - intros Hi j Hj. destruct (Nat.eq_dec j i) as [->|Hne]; [exact Hi|].
        apply Hr. lia. }
    change (loop net r d t (S (S n)) i le) with
      (match awaitFetch t (net i) with
       | Resolves response =>
           if ok response || ((400 <=? status response) && (status response <? 500))
           then (Returns response, [Fetch])
           else if Z.of_nat i <? r
           then let '(c, tr) := loop net r d t (S n) (S i) le in
                (c, Fetch :: warnStatus d response
                      :: Sleep (d * (Z.of_nat i + 1)) :: tr)
           else (Returns response, [Fetch])
       | Rejects error =>
           if String.eqb (name error) "AbortError"
           then (Throws timeoutMessage, [Fetch])
           else if Z.of_nat i <? r
           then let '(c, tr) := loop net r d t (S n) (S i) (Some error) in
                (c, Fetch :: warnError d error
                      :: Sleep (d * (Z.of_nat i + 1)) :: tr)
           else let '(c, tr) := loop net r d t (S n) (S i) (Some error) in
                (c, Fetch :: tr)
       end).
    destruct (awaitFetch t (net i)) as [response|error] eqn:E.
    + destruct (ok response || ((400 <=? status response) && (status response <? 500))) eqn:Hat.
      * exists 0%nat. rewrite Nat.add_0_r, E. cbn [retried conclude]. rewrite Hat.
        simpl. repeat split; intros; try first [lia | discriminate].
      * rewrite Hlt. destruct (Hstep le) as (k & Hk & Hq & Hr & Hc & Hl).
        exists k. destruct (loop net r d t (S n) (S i) le) as [c tr].
        cbn [fst snd quiet warnStatus] in *.
        split; [exact Hk|]. split; [exact Hq|].
        split; [apply Hr; cbn [retried]; rewrite Hat; reflexivity|].
        split; [exact Hc|exact Hl].
    + destruct (String.eqb (name error) "AbortError") eqn:Hab.
      * exists 0%nat. rewrite Nat.add_0_r, E. cbn [retried conclude]. rewrite Hab.
        simpl. repeat split; intros; try first [lia | discriminate].
      * rewrite Hlt. destruct (Hstep (Some error)) as (k & Hk & Hq & Hr & Hc & Hl).
        exists k. destruct (loop net r d t (S n) (S i) (Some error)) as [c tr].
        cbn [fst snd quiet warnError] in *.
        split; [exact Hk|]. split; [exact Hq|].
        split; [apply Hr; cbn [retried]; rewrite Hab; reflexivity|].
        split; [exact Hc|exact Hl].
Qed.

End AnyNetwork.

Lemma conclude_text y m : conclude y = Throws m -> m <> "".
Proof.
  destruct y as [response|error]; cbn [conclude]; [discriminate|].
  destruct (String.eqb (name error) "AbortError"); intros [= <-]; [discriminate|].
  unfold Js.orStr. destruct (String.eqb_spec (message error) ""); [discriminate|assumption].
Qed.

(** Every call with [retries >= 0] has a last round. *)
Lemma last_round net options :
  0 <= retriesOf options ->
  exists k,
    Z.of_nat k <= retriesOf options
    /\ endsAtRound options k (snd (fetchWithRetry net options))
    /\ (forall j, (j < k)%nat -> retried (attempt net options j) = true)
    /\ fst (fetchWithRetry net options) = conclude (attempt net options k)
    /\ (retried (attempt net options k) = true -> Z.of_nat k = retriesOf options).
Proof.
  intros Hr. unfold fetchWithRetry, endsAtRound, attempt.
  replace (Z.to_nat (retriesOf options + 1))
    with (S (Z.to_nat (retriesOf options))) by lia.
  destruct (loop_shape net (retriesOf options) (retryDelayOf options)
              (timeoutOf options) (Z.to_nat (retriesOf options)) 0 None)
    as (k & Hk & Hq & Hre & Hc & Hl); [lia|].
  exists k. split; [lia|]. split; [exact Hq|].
  split; [intros j Hj; apply Hre; lia|]. split; [exact Hc|exact Hl].
Qed.

(** X1.  Whatever the network does, a call with [retries >= 0] is a run
    of [k <= retries] rounds that are each retried, with the wait
    [retryDelay * (j + 1)] after round [j], then one last call; the
    outcome of that call settles the function, and an outcome the loop
    would retry is the last one only in round [retries]. *)
Theorem rounds_then_a_last_call net options :
  0 <= retriesOf options ->
  exists k,
    Z.of_nat k <= retriesOf options
    /\ endsAtRound options k (snd (fetchWithRetry net options))
    /\ (forall j, (j < k)%nat -> retried (attempt net options j) = true)
    /\ fst (fetchWithRetry net options) = conclude (attempt net options k)
    /\ (retried (attempt net options k) = true -> Z.of_nat k = retriesOf options).
Proof.
  intros Hr.
  assert (Hn : Z.of_nat (S (Z.to_nat (retriesOf options)) + 0) = retriesOf options + 1)
    by lia.
  destruct (loop_shape net (retriesOf options) (retryDelayOf options)
              (timeoutOf options) (Z.to_nat (retriesOf options)) 0 None Hn)
    as (k & Hk & Hq & Hre & Hc & Hl).
  unfold fetchWithRetry, endsAtRound, attempt.
  replace (Z.to_nat (retriesOf options + 1))
    with (S (Z.to_nat (retriesOf options))) by lia.
  exists k. split; [lia|]. split; [exact Hq|].
  split; [intros j Hj; apply Hre; lia|]. split; [exact Hc|exact Hl].
Qed.

(** X1 on a 503 followed by a 200. *)
Lemma rounds_then_a_last_call_witness :
  0 <= retriesOf Inputs.defaults
  /\ exists k,
       Z.of_nat k <= retriesOf Inputs.defaults
       /\ endsAtRound Inputs.defaults k
            (snd (fetchWithRetry (Inputs.thenOk Inputs.r503) Inputs.defaults))
       /\ fst (fetchWithRetry (Inputs.thenOk Inputs.r503) Inputs.defaults)
          = conclude (attempt (Inputs.thenOk Inputs.r503) Inputs.defaults k).
Proof.
  assert (H0 : 0 <= retriesOf Inputs.defaults) by (vm_compute; discriminate).
  split; [exact H0|].
  destruct (rounds_then_a_last_call (Inputs.thenOk Inputs.r503) Inputs.defaults H0)
    as (k & Hk & Hq & _ & Hc & _).
  exists k. split; [exact Hk|]. split; [exact Hq|exact Hc].
Defined.

Lemma no_round_without_retries net options :
  retriesOf options < 0 ->
  fetchWithRetry net options = (Throws networkMessage, []).
Proof.
  intros H. unfold fetchWithRetry.
  replace (Z.to_nat (retriesOf options + 1)) with 0%nat by lia. reflexivity.
Qed.

(** X2.  On any network and with any options, the function makes at
    most [retries + 1] calls (none when [retries] is negative). *)
Theorem at_most_retries_plus_one_calls net options :
  (fetches (snd (fetchWithRetry net options)) <= Z.to_nat (retriesOf options + 1))%nat.
Proof.
  destruct (Z.lt_ge_cases (retriesOf options) 0) as [Hneg|Hr].
  - rewrite (no_round_without_retries net options Hneg). simpl. lia.
  - destruct (last_round net options Hr) as (k & Hk & Hq & _).
    unfold endsAtRound in Hq.
    rewrite <- fetches_quiet, Hq, fetches_app, fetches_backoff. simpl. lia.
Qed.

(** X3.  With a delay that is not negative, the waits of one call add up
    to at most [retryDelay * (1 + ... + retries)], on any network. *)
Theorem total_delay_is_bounded net options :
  0 <= retryDelayOf options ->
  0 <= totalDelay (snd (fetchWithRetry net options))
    <= retryDelayOf options * (retriesOf options * (retriesOf options + 1) / 2).
Proof.
  intros Hd.
  assert (Hhalf : forall a, 0 <= a -> 0 <= a / 2) by (intros a Ha; apply Z.div_pos; lia).
  destruct (Z.lt_ge_cases (retriesOf options) 0) as [Hneg|Hr].
  - rewrite (no_round_without_retries net options Hneg). unfold totalDelay. simpl.
    split; [lia|]. apply Z.mul_nonneg_nonneg; [exact Hd|]. apply Hhalf. nia.
  - destruct (last_round net options Hr) as (k & Hk & Hq & _).
    unfold endsAtRound in Hq. unfold totalDelay.
    rewrite <- sleeps_quiet, Hq, sleeps_app, sleeps_backoff. simpl.
    rewrite app_nil_r, sum_backoff. split.
    + apply Z.mul_nonneg_nonneg; [exact Hd|]. apply Hhalf. nia.
    + apply Z.mul_le_mono_nonneg_l; [exact Hd|].
      apply Z.div_le_mono; [lia|]. nia.
Qed.

(** X3 under the defaults, on a backend that always answers 503. *)
Lemma total_delay_witness :
  0 <= retryDelayOf Inputs.defaults
  /\ totalDelay (snd (fetchWithRetry (Inputs.always Inputs.r503) Inputs.defaults))
     <= 6000.
Proof.
  assert (H0 : 0 <= retryDelayOf Inputs.defaults) by (vm_compute; discriminate).
  split; [exact H0|].
  exact (proj2 (total_delay_is_bounded (Inputs.always Inputs.r503) Inputs.defaults H0)).
Defined.

(** X4.  A response that is neither [ok] nor a 4xx is handed back to
    the caller only when the retries are used up: the function has then
    made [retries + 1] calls. *)
Theorem retried_response_means_exhausted net options response :
  fst (fetchWithRetry net options) = Returns response ->
  ok response = false ->
  ~ (400 <= status response <= 499) ->
  fetches (snd (fetchWithRetry net options)) = Z.to_nat (retriesOf options + 1).
Proof.
  intros Hret Hok H4.
  destruct (Z.lt_ge_cases (retriesOf options) 0) as [Hneg|Hr].
  - rewrite (no_round_without_retries net options Hneg) in Hret. discriminate Hret.
  - destruct (last_round net options Hr) as (k & Hk & Hq & _ & Hc & Hl).
    rewrite Hret in Hc.
    destruct (attempt net options k) as [response'|error] eqn:E; cbn [conclude] in Hc.
    + injection Hc as <-. cbn [retried] in Hl. rewrite Hok in Hl.
      assert (H4' : (400 <=? status response) && (status response <? 500) = false).
      { apply andb_false_iff.
        destruct (Z.leb_spec 400 (status response)); [right|left; reflexivity].
        apply Z.ltb_ge. lia. }
      rewrite H4' in Hl. specialize (Hl eq_refl).
      unfold endsAtRound in Hq.
      rewrite <- fetches_quiet, Hq, fetches_app, fetches_backoff. simpl. lia.
    + destruct (String.eqb (name error) "AbortError"); discriminate Hc.
Qed.

(** X4 at a 503 that is still there after the three retries. *)
Lemma retried_response_witness :
  fst (fetchWithRetry (Inputs.always Inputs.r503) Inputs.defaults) = Returns Inputs.r503
  /\ ok Inputs.r503 = false
  /\ ~ (400 <= status Inputs.r503 <= 499)
  /\ fetches (snd (fetchWithRetry (Inputs.always Inputs.r503) Inputs.defaults)) = 4%nat.
Proof.
  assert (H0 : fst (fetchWithRetry (Inputs.always Inputs.r503) Inputs.defaults)
               = Returns Inputs.r503) by reflexivity.
  assert (H1 : ok Inputs.r503 = false) by reflexivity.
  assert (H2 : ~ (400 <= status Inputs.r503 <= 499))
    by (vm_compute; intros [_ H]; apply H; reflexivity).
  repeat (split; [assumption|]).
  exact (retried_response_means_exhausted _ _ _ H0 H1 H2).
Defined.

(** X5.  An error that [fetchWithRetry] throws always has a text: the
    timeout text, the text of line 68, or the message of an error that
    one of its calls failed with. *)
Theorem thrown_text_is_never_empty net options m :
  fst (fetchWithRetry net options) = Throws m ->
  m <> ""
  /\ (m = timeoutMessage
      \/ m = networkMessage
      \/ exists i error, attempt net options i = Rejects error /\ m = message error).
Proof.
  intros Hthrow.
  destruct (Z.lt_ge_cases (retriesOf options) 0) as [Hneg|Hr].
  - rewrite (no_round_without_retries net options Hneg) in Hthrow.
    injection Hthrow as <-. split; [discriminate|]. right. left. reflexivity.
  - destruct (last_round net options Hr) as (k & _ & _ & _ & Hc & _).
    rewrite Hthrow in Hc. symmetry in Hc. split; [exact (conclude_text _ _ Hc)|].
    destruct (attempt net options k) as [response|error] eqn:E; cbn [conclude] in Hc;
      [discriminate|].
    destruct (String.eqb (name error) "AbortError"); injection Hc as Hm; subst m;
      [left; reflexivity|].
    unfold Js.orStr. destruct (String.eqb (message error) "").
    + right. left. reflexivity.
    + right. right. exists k, error. split; [exact E|reflexivity].
Qed.

(** X5 on a network whose errors have no text. *)
Lemma thrown_text_witness :
  fst (fetchWithRetry Inputs.unplugged Inputs.once) = Throws networkMessage
  /\ networkMessage <> "".
Proof.
  assert (H : fst (fetchWithRetry Inputs.unplugged Inputs.once) = Throws networkMessage)
    by reflexivity.
  split; [exact H|].
  exact (proj1 (thrown_text_is_never_empty _ _ _ H)).
Defined.

(** X6.  [fetchJSON] makes the calls of [fetchWithRetry] and no other,
    and it gives data exactly when [fetchWithRetry] returns an [ok]
    response whose body parses, the data being that body. *)
Theorem fetchJSON_gives_the_ok_body net options :
  snd (fetchJSON net options) = snd (fetchWithRetry net options)
  /\ forall v,
       fst (fetchJSON net options) = Gives v
       <-> exists response,
             fst (fetchWithRetry net options) = Returns response
             /\ ok response = true /\ json response = Some v.
Proof.
  unfold fetchJSON. destruct (fetchWithRetry net options) as [[response|m] tr].
  - cbn [fst snd].
    destruct (ok response) eqn:Hok; cbn [negb].
    + destruct (json response) as [v'|] eqn:Hj; (split; [reflexivity|]); intros v; split.
      * intros [= <-]. exists response. auto.
      * intros (response' & [= <-] & _ & Hv). cbn [fst]. congruence.
      * discriminate.
      * intros (response' & [= <-] & _ & Hv). congruence.
    + assert (Hno : forall v, ~ exists response',
                Returns response = Returns response'
                /\ ok response' = true /\ json response' = Some v).
      { intros v (response' & [= <-] & Hok' & _). congruence. }
      destruct (Js.get _ "error") as [e|]; [destruct (Js.truthy e)|];
        [| destruct (Js.get _ "message") as [e'|]; [destruct (Js.truthy e')|] |];
        (split; [reflexivity|]); intros v; (split; [discriminate|]);
        intros H; destruct (Hno v H).
  - cbn [fst snd]. split; [reflexivity|]. intros v. split; [discriminate|].
    intros (response & H & _). discriminate H.
Qed.

End FetchWithRetryRoundsFacts.

(** ** The interview page, over all its states *)

Module PageSessionFacts.
Import Page PageInputs PageSession PageSessionInputs PageFacts.

Lemma effect_eq prev next :
  effect prev next
  = setTicking (if depsChanged prev next
                then stepEqb (currentStep next) Mock && negb (showFeedback next)
                else ticking next) next.
Proof.
  unfold effect. destruct (depsChanged prev next); [reflexivity|].
  destruct next; reflexivity.
Qed.

Lemma stepEqb_refl a : stepEqb a a = true.
Proof. destruct a; reflexivity. Qed.

Lemma stepEqb_true a b : stepEqb a b = true <-> a = b.
Proof. split; [apply stepEqb_eq | intros ->; apply stepEqb_refl]. Qed.

Lemma sound_mount user : sound (mount user).
Proof.
  split; simpl; try reflexivity; try discriminate; try lia; auto.
Qed.

Ltac guards :=
  repeat match goal with
  | H : _ && _ = true |- _ => apply andb_prop in H as [? ?]
  | H : stepEqb _ _ = true |- _ => apply stepEqb_eq in H
  | H : negb _ = true |- _ => apply negb_true_iff in H
  | H : negb _ = false |- _ => apply negb_false_iff in H
  end.

(** A suspended generation is one with [isLoading] set, on the input
    screen. *)
Lemma generating_on_input w n a :
  sound w -> awaiting w !! n = Some a -> generating a = true ->
  isLoading (state w) = true /\ currentStep (state w) = Input.
Proof.
  intros H E G. pose proof (sound_loading w H) as Hc.
  unfold loadingOk, generationsInFlight in Hc. rewrite (count_delete generating _ _ _ E), G in Hc.
  destruct (isLoading (state w)) eqn:Hl; [|lia].
  split; [reflexivity|]. apply (sound_input w H), Hl.
Qed.

Lemma sound_fire_state ev w :
  sound w ->
  let s' := state (fst (fire ev w)) in
  (isLoading s' = true -> currentStep s' = Input)
  /\ (currentStep s' = Input \/ currentStep s' = Questions ->
      currentQuestionIndex s' = 0 /\ timer s' = 0 /\ currentAnswer s' = "")
  /\ (currentStep s' = Input -> questions s' = [])
  /\ 0 <= timer s'.
Proof.
  intros H.
  pose proof (sound_input w H) as Hi. pose proof (sound_before w H) as Hb.
  pose proof (sound_empty w H) as He. pose proof (sound_timer w H) as Ht.
  pose proof (sound_ticking w H) as Hk. unfold tickingOk in Hk.
  destruct ev; unfold fire, idle, commit; cbn [fst state];
    repeat case_if; cbn [fst state]; rewrite ?effect_eq; guards;
    try (cbn; intuition (congruence || lia)).
  - (* ClickGenerate *)
    unfold handleGenerateQuestions. repeat case_if; cbn; intuition (congruence || lia).
  - (* ClickSubmit *)
    unfold submitAnswer. repeat case_if; cbn; intuition (congruence || lia).
  - (* ClickNext *)
    unfold nextQuestion. repeat case_if; cbn; intuition (congruence || lia).
  - (* Settle *)
    rename Heqo into E.
    destruct a as [closure u| | |].
    + destruct (generating_on_input w n _ H E eq_refl) as [Hl Hs].
      destruct r as [okr data|]; cbn; intuition (congruence || lia).
    + destruct (generating_on_input w n _ H E eq_refl) as [Hl Hs].
      destruct r as [[|] [data|]|]; cbn; try (intuition (congruence || lia)).
      unfold generateSucceeded. repeat case_if; cbn; intuition (congruence || lia).
    + destruct r as [[|] [data|]|]; cbn; intuition (congruence || lia).
    + destruct r as [[|] [data|]|]; cbn; intuition (congruence || lia).
Qed.

Lemma field_effect_isSubmittingAnswer prev next :
  isSubmittingAnswer (effect prev next) = isSubmittingAnswer next.
Proof. rewrite effect_eq. reflexivity. Qed.

Lemma field_effect_isFetchingFollowUp prev next :
  isFetchingFollowUp (effect prev next) = isFetchingFollowUp next.
Proof. rewrite effect_eq. reflexivity. Qed.

Lemma generateSucceeded_flags data s :
  isSubmittingAnswer (generateSucceeded data s) = isSubmittingAnswer s
  /\ isFetchingFollowUp (generateSucceeded data s) = isFetchingFollowUp s.
Proof. unfold generateSucceeded. repeat case_if; split; reflexivity. Qed.

Lemma submittingOk_commit_other w s' started :
  submittingOk w ->
  isSubmittingAnswer s' = isSubmittingAnswer (state w) ->
  count submitting (List.map snd started) = O ->
  submittingOk (fst (commit w (awaiting w) (s', started))).
Proof.
  unfold submittingOk, commit. cbn [fst snd state awaiting].
  intros H E C. rewrite field_effect_isSubmittingAnswer, count_app, C, E. lia.
Qed.

Lemma followingUpOk_commit_other w s' started :
  followingUpOk w ->
  isFetchingFollowUp s' = isFetchingFollowUp (state w) ->
  count followingUp (List.map snd started) = O ->
  followingUpOk (fst (commit w (awaiting w) (s', started))).
Proof.
  unfold followingUpOk, commit. cbn [fst snd state awaiting].
  intros H E C. rewrite field_effect_isFetchingFollowUp, count_app, C, E. lia.
Qed.

Lemma submittingOk_fire ev w : submittingOk w -> submittingOk (fst (fire ev w)).
Proof.
  intros H.
  destruct ev; unfold fire, idle; cbn [fst];
    repeat case_if; try exact H;
    try (apply submittingOk_commit_other; [exact H | reflexivity | reflexivity]).
  - unfold handleGenerateQuestions.
    repeat case_if; apply submittingOk_commit_other; solve [exact H | reflexivity].
  - guards. unfold submitDisabled in *.
    match goal with Hd : _ || _ = false |- _ => apply orb_false_elim in Hd as [Hs Hb] end.
    unfold submitAnswer. rewrite Hb.
    unfold submittingOk, commit in *. cbn [fst snd state awaiting].
    rewrite field_effect_isSubmittingAnswer, count_app, H, Hs. reflexivity.
  - apply submittingOk_commit_other; [exact H | | reflexivity].
    unfold nextQuestion. case_if; reflexivity.
  - rename Heqo into E. unfold submittingOk in *.
    rewrite (count_delete submitting _ _ _ E) in H.
    unfold commit; cbn [fst snd state awaiting].
    rewrite field_effect_isSubmittingAnswer, count_app.
    destruct a as [closure u| | |], r as [[|] [data|]|]; cbn [resume fst snd];
      rewrite ?(proj1 (generateSucceeded_flags _ _)); simpl in *;
      destruct (isSubmittingAnswer (state w)); lia.
Qed.

Lemma followingUpOk_fire ev w : followingUpOk w -> followingUpOk (fst (fire ev w)).
Proof.
  intros H.
  destruct ev; unfold fire, idle; cbn [fst];
    repeat case_if; try exact H;
    try (apply followingUpOk_commit_other; [exact H | reflexivity | reflexivity]).
  - unfold handleGenerateQuestions.
    repeat case_if; apply followingUpOk_commit_other; solve [exact H | reflexivity].
  - unfold submitAnswer.
    case_if; apply followingUpOk_commit_other; solve [exact H | reflexivity].
  - guards.
    unfold followingUpOk, commit, requestFollowUp in *. cbn [fst snd state awaiting].
    rewrite field_effect_isFetchingFollowUp, count_app, H.
    match goal with Hf : isFetchingFollowUp _ = false |- _ => rewrite Hf end.
    reflexivity.
  - apply followingUpOk_commit_other; [exact H | | reflexivity].
    unfold nextQuestion. case_if; reflexivity.
  - rename Heqo into E. unfold followingUpOk in *.
    rewrite (count_delete followingUp _ _ _ E) in H.
    unfold commit; cbn [fst snd state awaiting].
    rewrite field_effect_isFetchingFollowUp, count_app.
    destruct a as [closure u| | |], r as [[|] [data|]|]; cbn [resume fst snd];
      rewrite ?(proj2 (generateSucceeded_flags _ _)); simpl in *;
      destruct (isFetchingFollowUp (state w)); lia.
Qed.

Lemma sound_fire ev w : sound w -> sound (fst (fire ev w)).
Proof.
  intros H. destruct (sound_fire_state ev w H) as (Hi & Hb & He & Ht).
  split.
  - apply (loadingOk_fire ev w), (sound_loading w H).
  - apply submittingOk_fire, (sound_submitting w H).
  - apply followingUpOk_fire, (sound_followingUp w H).
  - exact Hi.
  - exact Hb.
  - exact He.
  - exact Ht.
  - exact (tickingOk_fire ev w (sound_ticking w H)).
Qed.

Lemma reachable_sound w : reachable w -> sound w.
Proof.
  induction 1 as [user|ev w Hw IH]; [apply sound_mount|apply sound_fire, IH].
Qed.

(** *** Properties of every reachable state *)

(** X7.  [isSubmittingAnswer] is true exactly while one feedback request
    is in flight, there is never more than one, and while it is true a
    click on the submit button runs no handler: no request, no change. *)
Theorem one_submission_in_flight w :
  reachable w ->
  count submitting (awaiting w)
  = (if isSubmittingAnswer (state w) then 1 else 0)%nat
  /\ (count submitting (awaiting w) <= 1)%nat
  /\ (isSubmittingAnswer (state w) = true -> fire ClickSubmit w = (w, [])).
Proof.
  intros Hw. pose proof (sound_submitting w (reachable_sound w Hw)) as H.
  unfold submittingOk in H. split; [exact H|]. split.
  - rewrite H. destruct (isSubmittingAnswer (state w)); lia.
  - intros Hs. unfold fire, submitDisabled. rewrite Hs. simpl.
    rewrite andb_false_r. reflexivity.
Qed.

(** X7 on a submission that is under way. *)
Lemma one_submission_witness :
  reachable submitted
  /\ isSubmittingAnswer (state submitted) = true
  /\ fire ClickSubmit submitted = (submitted, [])
  /\ count submitting (awaiting submitted) = 1%nat.
Proof.
  assert (Hr : reachable submitted) by (do 2 apply reachable_run; apply reachable_mount).
  assert (Hs : isSubmittingAnswer (state submitted) = true) by reflexivity.
  split; [exact Hr|]. split; [exact Hs|].
  split; [exact (proj2 (proj2 (one_submission_in_flight submitted Hr)) Hs)|].
  exact (proj1 (one_submission_in_flight submitted Hr)).
Defined.

(** X8.  [isFetchingFollowUp] is true exactly while one follow-up
    request is in flight, there is never more than one, and while it is
    true a click on the follow-up button runs no handler. *)
Theorem one_follow_up_in_flight w :
  reachable w ->
  count followingUp (awaiting w)
  = (if isFetchingFollowUp (state w) then 1 else 0)%nat
  /\ (count followingUp (awaiting w) <= 1)%nat
  /\ (isFetchingFollowUp (state w) = true -> fire ClickFollowUp w = (w, [])).
Proof.
  intros Hw. pose proof (sound_followingUp w (reachable_sound w Hw)) as H.
  unfold followingUpOk in H. split; [exact H|]. split.
  - rewrite H. destruct (isFetchingFollowUp (state w)); lia.
  - intros Hs. unfold fire. rewrite Hs. simpl.
    rewrite andb_false_r. reflexivity.
Qed.

(** X8 on a follow-up that is being fetched. *)
Lemma one_follow_up_witness :
  reachable fetchingFollowUp
  /\ isFetchingFollowUp (state fetchingFollowUp) = true
  /\ fire ClickFollowUp fetchingFollowUp = (fetchingFollowUp, [])
  /\ count followingUp (awaiting fetchingFollowUp) = 1%nat.
Proof.
  assert (Hr : reachable fetchingFollowUp)
    by (do 3 apply reachable_run; apply reachable_mount).
  assert (Hs : isFetchingFollowUp (state fetchingFollowUp) = true) by reflexivity.
  split; [exact Hr|]. split; [exact Hs|].
  split; [exact (proj2 (proj2 (one_follow_up_in_flight fetchingFollowUp Hr)) Hs)|].
  exact (proj1 (one_follow_up_in_flight fetchingFollowUp Hr)).
Defined.

Lemma currentStep_effect prev next : currentStep (effect prev next) = currentStep next.
Proof. rewrite effect_eq. reflexivity. Qed.

(** X9.  From a reachable state an event leaves [currentStep] as it is
    or moves it along one of four edges: input to questions, when the
    event is a successful reply with a body to a suspended generation
    request; questions to mock, on the start button; mock to complete,
    on the next button while the feedback shows and no question comes
    after the current one; and any step but input back to input, on a
    reset button.  In particular the complete screen is left only by a
    reset. *)
Theorem steps_follow_the_edges ev w :
  reachable w ->
  edge w ev (currentStep (state w)) (currentStep (state (fst (fire ev w))))
  /\ (currentStep (state w) = Complete -> ev <> ClickReset ->
      currentStep (state (fst (fire ev w))) = Complete).
Proof.
  intros Hw. pose proof (reachable_sound w Hw) as H.
  assert (He : edge w ev (currentStep (state w))
                 (currentStep (state (fst (fire ev w))))).
  { destruct ev; unfold fire, idle, commit; cbn [fst state];
      repeat case_if; cbn [fst state]; rewrite ?currentStep_effect; guards;
      try apply edge_stay.
    - unfold handleGenerateQuestions. repeat case_if; apply edge_stay.
    - match goal with Hq : currentStep _ = Questions |- _ => rewrite Hq end.
      apply edge_start.
    - cbn. apply edge_reset.
      destruct (currentStep (state w)); [discriminate| | |]; discriminate.
    - unfold submitAnswer. repeat case_if; apply edge_stay.
    - match goal with Hq : currentStep _ = Mock |- _ => rewrite Hq end.
      unfold nextQuestion. case_if; cbn.
      + match goal with Hq : currentStep _ = Mock |- _ => rewrite Hq end.
        apply edge_stay.
      + apply edge_complete; [assumption|].
        apply Z.ltb_ge. assumption.
    - rename Heqo into E.
      destruct a as [closure u| | |].
      + destruct r as [okr data|]; apply edge_stay.
      + destruct (generating_on_input w n _ H E eq_refl) as [_ Hs]. rewrite Hs.
        destruct r as [[|] [data|]|]; cbn [resume fst];
          try (rewrite <- Hs; apply edge_stay).
        replace (currentStep (generateSucceeded data (state w))) with Questions
          by (unfold generateSucceeded; repeat case_if; reflexivity).
        apply edge_generated. exact E.
      + destruct r as [[|] [data|]|]; apply edge_stay.
      + destruct r as [[|] [data|]|]; apply edge_stay. }
  split; [exact He|].
  intros Hc Hev. rewrite Hc in He.
  remember (currentStep (state (fst (fire ev w)))) as b eqn:Hb.
  inversion He; subst; congruence.
Qed.

(** X9 when the two questions come back: the reply settles the
    generation request and takes the page from the input screen to the
    questions. *)
Lemma steps_follow_the_edges_witness :
  reachable loading
  /\ awaiting loading !! 0%nat = Some GenerateFetch
  /\ currentStep (state loading) = Input
  /\ currentStep (state (fst (fire (Settle 0 (Replied true (Some twoQuestions)))
                                loading))) = Questions
  /\ edge loading (Settle 0 (Replied true (Some twoQuestions))) Input Questions.
Proof.
  assert (Hr : reachable loading) by apply reachable_run, reachable_mount.
  split; [exact Hr|]. split; [reflexivity|].
  split; [reflexivity|]. split; [reflexivity|].
  exact (proj1 (steps_follow_the_edges (Settle 0 (Replied true (Some twoQuestions)))
                  loading Hr)).
Defined.

(** X10.  In every reachable state: a generation is in flight only on
    the input screen; the input screen has no question; and before the
    mock interview (input and questions screens) the index and the timer
    are 0, the answer is empty and no interval is live. *)
Theorem clean_before_the_interview w :
  reachable w ->
  (isLoading (state w) = true -> currentStep (state w) = Input)
  /\ (currentStep (state w) = Input -> questions (state w) = [])
  /\ (currentStep (state w) = Input \/ currentStep (state w) = Questions ->
      currentQuestionIndex (state w) = 0 /\ timer (state w) = 0
      /\ currentAnswer (state w) = "" /\ ticking (state w) = false).
Proof.
  intros Hw. pose proof (reachable_sound w Hw) as H.
  split; [exact (sound_input w H)|]. split; [exact (sound_empty w H)|].
  intros Hs. destruct (sound_before w H Hs) as (Hi & Ht & Ha).
  split; [exact Hi|]. split; [exact Ht|]. split; [exact Ha|].
  destruct (ticking (state w)) eqn:Hk; [|reflexivity].
  destruct (sound_ticking w H Hk) as [Hm _]. destruct Hs; congruence.
Qed.

(** X10 on the page while its generation is under way. *)
Lemma clean_before_the_interview_witness :
  reachable loading
  /\ currentStep (state loading) = Input
  /\ questions (state loading) = []
  /\ timer (state loading) = 0.
Proof.
  assert (Hr : reachable loading) by apply reachable_run, reachable_mount.
  destruct (clean_before_the_interview loading Hr) as (Hi & He & Hb).
  assert (Hs : currentStep (state loading) = Input) by (apply Hi; reflexivity).
  split; [exact Hr|]. split; [exact Hs|]. split; [exact (He Hs)|].
  exact (proj1 (proj2 (Hb (or_introl Hs)))).
Defined.

Lemma timer_effect prev next : timer (effect prev next) = timer next.
Proof. rewrite effect_eq. reflexivity. Qed.

(** X11.  The timer is never negative, and from a reachable state an
    event leaves it as it is, sets it to 0, or, when it is a tick, adds
    1 to it; a tick does so only in the mock interview while the
    feedback does not show. *)
Theorem timer_only_ticks_on_an_open_question ev w :
  reachable w ->
  let before := timer (state w) in
  let after := timer (state (fst (fire ev w))) in
  0 <= before
  /\ (after = before \/ after = 0
      \/ (ev = Tick /\ after = before + 1
          /\ currentStep (state w) = Mock /\ showFeedback (state w) = false)).
Proof.
  intros Hw before after. pose proof (reachable_sound w Hw) as H.
  split; [exact (sound_timer w H)|]. subst before after.
  destruct ev; unfold fire, idle, commit; cbn [fst state];
    repeat case_if; cbn [fst state]; rewrite ?timer_effect;
    try (left; reflexivity); try (right; left; reflexivity).
  - unfold handleGenerateQuestions. repeat case_if; left; reflexivity.
  - unfold submitAnswer. repeat case_if; left; reflexivity.
  - unfold nextQuestion. case_if; [right; left; reflexivity|left; reflexivity].
  - right. right. destruct (sound_ticking w H Heqb) as [Hm Hf]. cbn. auto.
  - destruct a as [closure u| | |], r as [[|] [data|]|]; cbn [resume fst];
      try (left; reflexivity).
    unfold generateSucceeded. repeat case_if; left; reflexivity.
Qed.

(** X11 on a tick in a mock interview that has just started. *)
Lemma timer_witness :
  reachable emptyMock
  /\ timer (state (fst (fire Tick emptyMock))) = timer (state emptyMock) + 1.
Proof.
  assert (Hr : reachable emptyMock) by apply reachable_run, reachable_mount.
  split; [exact Hr|].
  destruct (timer_only_ticks_on_an_open_question Tick emptyMock Hr)
    as (_ & [H|[H|(_ & H & _)]]); [vm_compute in H; discriminate H
                                  |vm_compute in H; discriminate H
                                  |exact H].
Defined.

(** *** One question of the mock interview *)

Lemma lookup_last_awaiting (aw : list Awaiting) a : (aw ++ [a]) !! length aw = Some a.
Proof. induction aw as [|b aw IH]; [reflexivity|exact IH]. Qed.

Lemma delete_last_awaiting (aw : list Awaiting) a : delete (length aw) (aw ++ [a]) = aw.
Proof. induction aw as [|b aw IH]; [reflexivity|]. simpl. f_equal. exact IH. Qed.

Lemma effect_unchanged prev next :
  currentStep next = currentStep prev ->
  currentQuestionIndex next = currentQuestionIndex prev ->
  showFeedback next = showFeedback prev ->
  effect prev next = next.
Proof.
  intros E1 E2 E3. unfold effect, depsChanged.
  rewrite E1, E2, E3, stepEqb_refl, Z.eqb_refl, eqb_reflx. reflexivity.
Qed.

Lemma fire_TypeAnswer w v :
  currentStep (state w) = Mock ->
  fire (TypeAnswer v) w
  = ({| state := setCurrentAnswer v (state w);
        session := session w; awaiting := awaiting w |}, []).
Proof.
  intros Hm. unfold fire, commit. rewrite Hm. cbn [stepEqb fst snd List.map].
  rewrite effect_unchanged, app_nil_r by reflexivity. reflexivity.
Qed.

Lemma fire_ClickSubmit w :
  currentStep (state w) = Mock ->
  showFeedback (state w) = false ->
  isSubmittingAnswer (state w) = false ->
  Js.blank (currentAnswer (state w)) = false ->
  fire ClickSubmit w
  = ({| state := setError "" (setIsSubmittingAnswer true (setTicking false (state w)));
        session := session w; awaiting := awaiting w ++ [FeedbackFetch] |},
     [feedbackRequest (state w)]).
Proof.
  intros Hm Hf Hs Hb. unfold fire, commit, submitDisabled, submitAnswer.
  rewrite Hm, Hf, Hs, Hb. cbn [stepEqb negb andb orb fst snd List.map].
  rewrite effect_unchanged by reflexivity. reflexivity.
Qed.

Lemma fire_Settle_feedback w n data :
  awaiting w !! n = Some FeedbackFetch ->
  showFeedback (state w) = false ->
  fire (Settle n (Replied true (Some data))) w
  = ({| state :=
          setTicking false
            (setIsSubmittingAnswer false (setShowFeedback true
               (setFeedback (Js.orOpt (data_feedback data) feedbackFallback)
                  (state w))));
        session := session w; awaiting := delete n (awaiting w) |}, []).
Proof.
  intros E Hf. unfold fire, commit. rewrite E. cbn [resume fst snd List.map].
  rewrite app_nil_r. unfold effect, depsChanged. cbn [showFeedback setIsSubmittingAnswer
    setShowFeedback setFeedback currentStep currentQuestionIndex].
  rewrite Hf. cbn [Bool.eqb negb]. rewrite !orb_true_r. cbn [negb].
  rewrite andb_false_r. reflexivity.
Qed.

Lemma fire_ClickNext_advance w :
  currentStep (state w) = Mock ->
  showFeedback (state w) = true ->
  currentQuestionIndex (state w) + 1 < Z.of_nat (length (questions (state w))) ->
  fire ClickNext w
  = ({| state :=
          setTicking true
            (setTimer 0 (setError "" (setFollowUpQuestion "" (setShowFeedback false
               (setFeedback "" (setCurrentAnswer ""
                  (setCurrentQuestionIndex (currentQuestionIndex (state w) + 1)
                     (state w))))))));
        session := session w; awaiting := awaiting w |}, []).
Proof.
  intros Hm Hf Hlt. unfold fire, commit, nextQuestion.
  rewrite Hm, Hf. cbn [stepEqb andb fst snd List.map].
  replace (currentQuestionIndex (state w) <? Z.of_nat (length (questions (state w))) - 1)
    with true by (symmetry; apply Z.ltb_lt; lia).
  rewrite app_nil_r. unfold effect, depsChanged.
  cbn [showFeedback currentStep currentQuestionIndex setTimer setError
         setFollowUpQuestion setShowFeedback setFeedback setCurrentAnswer
         setCurrentQuestionIndex].
  rewrite Hm, Hf. cbn [Bool.eqb negb stepEqb]. rewrite !orb_true_r. reflexivity.
Qed.

Lemma fire_ClickNext_complete w :
  currentStep (state w) = Mock ->
  showFeedback (state w) = true ->
  Z.of_nat (length (questions (state w))) <= currentQuestionIndex (state w) + 1 ->
  fire ClickNext w
  = ({| state := setTicking false (setCurrentStep Complete (state w));
        session := session w; awaiting := awaiting w |}, []).
Proof.
  intros Hm Hf Hge. unfold fire, commit, nextQuestion.
  rewrite Hm, Hf. cbn [stepEqb andb fst snd List.map].
  replace (currentQuestionIndex (state w) <? Z.of_nat (length (questions (state w))) - 1)
    with false by (symmetry; apply Z.ltb_ge; lia).
  rewrite app_nil_r. unfold effect, depsChanged.
  cbn [showFeedback currentStep currentQuestionIndex setCurrentStep].
  rewrite Hm. cbn [stepEqb negb orb andb]. reflexivity.
Qed.

(** X12.  One question of the mock interview, from any state in which
    it is open (mock step, no feedback showing, no submission in
    flight), with an answer that is not blank: typing it and clicking
    submit sends one feedback request with the current question, the
    answer and the timer; the interval is stopped while the request is
    in flight; a successful reply shows the feedback with the timer as
    it was; the next button then opens the next question with index plus
    one, timer 0 and a live interval, or, on the last question, ends the
    interview. *)
Theorem answering_a_question w answer data :
  currentStep (state w) = Mock ->
  showFeedback (state w) = false ->
  isSubmittingAnswer (state w) = false ->
  Js.blank answer = false ->
  let w1 := fst (fire (TypeAnswer answer) w) in
  let w2 := fst (fire ClickSubmit w1) in
  let w3 := fst (fire (Settle (length (awaiting w)) (Replied true (Some data))) w2) in
  let w4 := fst (fire ClickNext w3) in
  snd (fire ClickSubmit w1)
  = [{| path := "/api/generate-feedback";
        headers := [("Content-Type", "application/json")];
        body := FeedbackBody (currentQuestion (state w)) answer (timer (state w)) |}]
  /\ fire Tick w2 = (w2, [])
  /\ (showFeedback (state w3) = true
      /\ feedback (state w3) = Js.orOpt (data_feedback data) feedbackFallback
      /\ timer (state w3) = timer (state w)
      /\ ticking (state w3) = false
      /\ awaiting w3 = awaiting w)
  /\ ((currentQuestionIndex (state w) + 1 < Z.of_nat (length (questions (state w)))
       /\ currentStep (state w4) = Mock
       /\ currentQuestionIndex (state w4) = currentQuestionIndex (state w) + 1
       /\ timer (state w4) = 0 /\ ticking (state w4) = true
       /\ currentAnswer (state w4) = "" /\ feedback (state w4) = ""
       /\ showFeedback (state w4) = false)
      \/ (Z.of_nat (length (questions (state w))) <= currentQuestionIndex (state w) + 1
          /\ currentStep (state w4) = Complete /\ ticking (state w4) = false)).
Proof.
  intros Hm Hf Hs Hb. cbv zeta.
  rewrite (fire_TypeAnswer w answer Hm). cbn [fst snd].
  set (w1 := {| state := setCurrentAnswer answer (state w);
                session := session w; awaiting := awaiting w |}).
  rewrite (fire_ClickSubmit w1 Hm Hf Hs Hb). cbn [fst snd].
  set (w2 := {| state := setError "" (setIsSubmittingAnswer true
                                        (setTicking false (state w1)));
                session := session w1; awaiting := awaiting w1 ++ [FeedbackFetch] |}).
  split; [reflexivity|]. split; [reflexivity|].
  rewrite (fire_Settle_feedback w2 (length (awaiting w)) data
             (lookup_last_awaiting _ _) Hf).
  cbn [fst]. subst w2. cbn [awaiting state session]. rewrite delete_last_awaiting.
  split; [repeat split|].
  set (w3 := {| state := _; session := _; awaiting := _ |}).
  assert (Hm3 : currentStep (state w3) = Mock) by exact Hm.
  assert (Hf3 : showFeedback (state w3) = true) by reflexivity.
  destruct (Z.lt_ge_cases (currentQuestionIndex (state w) + 1)
              (Z.of_nat (length (questions (state w))))) as [Hlt|Hge].
  - left. split; [exact Hlt|].
    rewrite (fire_ClickNext_advance w3 Hm3 Hf3) by (cbn; lia).
    cbn. repeat split. exact Hm.
  - right. split; [exact Hge|].
    rewrite (fire_ClickNext_complete w3 Hm3 Hf3) by (cbn; lia).
    cbn. repeat split.
Qed.

(** X12 on the first of two questions. *)
Lemma answering_a_question_witness :
  currentStep (state firstQuestion) = Mock
  /\ showFeedback (state firstQuestion) = false
  /\ isSubmittingAnswer (state firstQuestion) = false
  /\ Js.blank "I led a project" = false
  /\ fire Tick (fst (fire ClickSubmit
                      (fst (fire (TypeAnswer "I led a project") firstQuestion))))
     = (fst (fire ClickSubmit
               (fst (fire (TypeAnswer "I led a project") firstQuestion))), []).
Proof.
  assert (H0 : currentStep (state firstQuestion) = Mock) by reflexivity.
  assert (H1 : showFeedback (state firstQuestion) = false) by reflexivity.
  assert (H2 : isSubmittingAnswer (state firstQuestion) = false) by reflexivity.
  assert (H3 : Js.blank "I led a project" = false) by reflexivity.
  split; [exact H0|]. split; [exact H1|]. split; [exact H2|]. split; [exact H3|].
  exact (proj1 (proj2 (answering_a_question firstQuestion "I led a project"
                         emptyFeedback H0 H1 H2 H3))).
Defined.

Lemma fire_Settle_feedback_failed w n r :
  awaiting w !! n = Some FeedbackFetch ->
  failed r = true ->
  fire (Settle n r) w
  = ({| state := setIsSubmittingAnswer false
                   (setError "Failed to get feedback. Please try again." (state w));
        session := session w; awaiting := delete n (awaiting w) |}, []).
Proof.
  intros E Hr. unfold fire, commit. rewrite E.
  destruct r as [[|] [data|]|]; try discriminate Hr; cbn [resume fst snd List.map];
    rewrite app_nil_r, effect_unchanged by reflexivity; reflexivity.
Qed.

(** X13.  When the feedback request fails (a response that is not
    [ok], a body that does not parse, or no response), the page shows
    "Failed to get feedback. Please try again." and stays on the
    question with the answer and the timer as they were; the interval
    stays stopped; and a second click on submit sends the same request
    again, with the same time spent. *)
Theorem failed_submission_can_be_retried w answer r :
  currentStep (state w) = Mock ->
  showFeedback (state w) = false ->
  isSubmittingAnswer (state w) = false ->
  Js.blank answer = false ->
  failed r = true ->
  let w1 := fst (fire (TypeAnswer answer) w) in
  let w2 := fst (fire ClickSubmit w1) in
  let w3 := fst (fire (Settle (length (awaiting w)) r) w2) in
  error (state w3) = "Failed to get feedback. Please try again."
  /\ currentStep (state w3) = Mock
  /\ showFeedback (state w3) = false
  /\ feedback (state w3) = feedback (state w)
  /\ currentAnswer (state w3) = answer
  /\ timer (state w3) = timer (state w)
  /\ awaiting w3 = awaiting w
  /\ fire Tick w3 = (w3, [])
  /\ snd (fire ClickSubmit w3) = snd (fire ClickSubmit w1)
  /\ snd (fire ClickSubmit w3) <> [].
Proof.
  intros Hm Hf Hs Hb Hr. cbv zeta.
  rewrite (fire_TypeAnswer w answer Hm). cbn [fst snd].
  set (w1 := {| state := setCurrentAnswer answer (state w);
                session := session w; awaiting := awaiting w |}).
  rewrite (fire_ClickSubmit w1 Hm Hf Hs Hb). cbn [fst snd].
  set (w2 := {| state := setError "" (setIsSubmittingAnswer true
                                        (setTicking false (state w1)));
                session := session w1; awaiting := awaiting w1 ++ [FeedbackFetch] |}).
  rewrite (fire_Settle_feedback_failed w2 (length (awaiting w)) r
             (lookup_last_awaiting _ _) Hr).
  cbn [fst]. subst w2. cbn [awaiting state session]. rewrite delete_last_awaiting.
  set (w3 := {| state := _; session := _; awaiting := _ |}).
  assert (Hs3 : isSubmittingAnswer (state w3) = false) by reflexivity.
  rewrite (fire_ClickSubmit w3 Hm Hf Hs3 Hb). cbn [snd].
  split; [reflexivity|]. split; [exact Hm|]. split; [exact Hf|].
  repeat (split; [reflexivity|]). discriminate.
Qed.

(** X13 on the first of two questions, the backend being down. *)
Lemma failed_submission_witness :
  currentStep (state firstQuestion) = Mock
  /\ showFeedback (state firstQuestion) = false
  /\ isSubmittingAnswer (state firstQuestion) = false
  /\ Js.blank "I led a project" = false
  /\ failed Failed = true
  /\ error (state (fst (fire (Settle (length (awaiting firstQuestion)) Failed)
                          (fst (fire ClickSubmit
                                  (fst (fire (TypeAnswer "I led a project")
                                          firstQuestion)))))))
     = "Failed to get feedback. Please try again.".
Proof.
  assert (H0 : currentStep (state firstQuestion) = Mock) by reflexivity.
  assert (H1 : showFeedback (state firstQuestion) = false) by reflexivity.
  assert (H2 : isSubmittingAnswer (state firstQuestion) = false) by reflexivity.
  assert (H3 : Js.blank "I led a project" = false) by reflexivity.
  assert (H4 : failed Failed = true) by reflexivity.
  split; [exact H0|]. split; [exact H1|]. split; [exact H2|]. split; [exact H3|]. split; [exact H4|].
  exact (proj1 (failed_submission_can_be_retried firstQuestion "I led a project"
                  Failed H0 H1 H2 H3 H4)).
Defined.

(** X14.  A reply that fails, to whichever request, changes neither
    the step, nor the questions, the index, the answer, the feedback and
    its panel, the timer or the interval. *)
Theorem failed_reply_keeps_the_session w n r :
  failed r = true ->
  let s := state w in
  let s' := state (fst (fire (Settle n r) w)) in
  currentStep s' = currentStep s
  /\ questions s' = questions s
  /\ currentQuestionIndex s' = currentQuestionIndex s
  /\ currentAnswer s' = currentAnswer s
  /\ feedback s' = feedback s
  /\ showFeedback s' = showFeedback s
  /\ timer s' = timer s
  /\ ticking s' = ticking s.
Proof.
  intros Hr. cbv zeta. unfold fire, idle, commit.
  destruct (awaiting w !! n) as [a|]; cbn [fst state]; [|repeat split].
  destruct a as [closure u| | |], r as [[|] [data|]|]; try discriminate Hr;
    cbn [resume fst]; rewrite effect_unchanged by reflexivity; repeat split.
Qed.

(** X14 on a generation that fails. *)
Lemma failed_reply_witness :
  failed (Replied false None) = true
  /\ currentStep (state (fst (fire (Settle 0 (Replied false None)) loading))) = Input.
Proof.
  assert (H : failed (Replied false None) = true) by reflexivity.
  split; [exact H|].
  exact (proj1 (failed_reply_keeps_the_session loading 0 (Replied false None) H)).
Defined.

(** *** The form as it was when the button was clicked *)

Lemma fire_formEdit ev w :
  isFormEdit ev = true ->
  awaiting (fst (fire ev w)) = awaiting w /\ session (fst (fire ev w)) = session w.
Proof.
  destruct ev; try discriminate; intros _; unfold fire, idle, commit;
    case_if; cbn [fst snd awaiting session List.map]; rewrite ?app_nil_r; auto.
Qed.

Lemma run_formEdits evs : forall w,
  forallb isFormEdit evs = true ->
  awaiting (run evs w) = awaiting w /\ session (run evs w) = session w.
Proof.
  induction evs as [|ev evs IH]; intros w H; [auto|].
  cbn [forallb] in H. apply andb_prop in H as [H1 H2].
  destruct (fire_formEdit ev w H1) as [Ea Es].
  destruct (IH (fst (fire ev w)) H2) as [Ea' Es'].
  change (run (ev :: evs) w) with (run evs (fst (fire ev w))).
  rewrite Ea', Es'. auto.
Qed.

(** X15.  For a signed-in user the generate button first sends the
    registration request; when that call settles with a response, the
    generation request goes to [/api/db/generate-questions] with the
    form as it was when the button was clicked, whatever was typed or
    picked on the form in between. *)
Theorem generation_sends_the_form_as_clicked w u evs okr data :
  currentStep (state w) = Input ->
  generateDisabled (state w) = false ->
  session w = Some u ->
  forallb isFormEdit evs = true ->
  snd (fire ClickGenerate w) = [authUserRequest u]
  /\ snd (fire (Settle (length (awaiting w)) (Replied okr data))
            (run evs (fst (fire ClickGenerate w))))
     = [generateRequest (Some u) (state w)].
Proof.
  intros Hi Hd Hu Hevs.
  assert (E : fire ClickGenerate w
              = (fst (fire ClickGenerate w), [authUserRequest u])
              /\ awaiting (fst (fire ClickGenerate w))
                 = awaiting w ++ [AuthUserFetch (state w) u]).
  { unfold fire, commit, handleGenerateQuestions. rewrite Hi, Hd, Hu.
    cbn [stepEqb negb andb]. unfold generateDisabled in Hd.
    apply orb_false_elim in Hd as [Hd Hc]. apply orb_false_elim in Hd as [_ Hj].
    rewrite Hj, Hc. cbn. auto. }
  destruct E as [E1 E2]. split; [rewrite E1; reflexivity|].
  destruct (run_formEdits evs (fst (fire ClickGenerate w)) Hevs) as [Ea _].
  unfold fire at 1, commit. rewrite Ea, E2, lookup_last_awaiting. reflexivity.
Qed.

(** X15 with the company retyped while the registration is under way. *)
Lemma generation_witness :
  currentStep (state signedIn) = Input
  /\ generateDisabled (state signedIn) = false
  /\ session signedIn = Some someone
  /\ forallb isFormEdit [TypeCompany "Initech"] = true
  /\ snd (fire (Settle (length (awaiting signedIn)) (Replied true None))
            (run [TypeCompany "Initech"] (fst (fire ClickGenerate signedIn))))
     = [generateRequest (Some someone) (state signedIn)].
Proof.
  assert (H0 : currentStep (state signedIn) = Input) by reflexivity.
  assert (H1 : generateDisabled (state signedIn) = false) by reflexivity.
  assert (H2 : session signedIn = Some someone) by reflexivity.
  assert (H3 : forallb isFormEdit [TypeCompany "Initech"] = true) by reflexivity.
  split; [exact H0|]. split; [exact H1|]. split; [exact H2|]. split; [exact H3|].
  exact (proj2 (generation_sends_the_form_as_clicked signedIn someone
                  [TypeCompany "Initech"] true None H0 H1 H2 H3)).
Defined.

(** *** Generating, and starting the interview *)

Lemma fire_ClickGenerate_anonymous w :
  currentStep (state w) = Input ->
  generateDisabled (state w) = false ->
  session w = None ->
  fire ClickGenerate w
  = ({| state := setError "" (setIsLoading true (state w));
        session := session w; awaiting := awaiting w ++ [GenerateFetch] |},
     [generateRequest None (state w)]).
Proof.
  intros Hi Hd Hu. unfold fire, commit, handleGenerateQuestions.
  rewrite Hi, Hd, Hu. cbn [stepEqb negb andb].
  unfold generateDisabled in Hd.
  apply orb_false_elim in Hd as [Hd Hc]. apply orb_false_elim in Hd as [_ Hj].
  rewrite Hj, Hc. cbn [orb fst snd List.map].
  rewrite effect_unchanged by reflexivity. reflexivity.
Qed.

Lemma fire_Settle_generate_failed w n r :
  awaiting w !! n = Some GenerateFetch ->
  failed r = true ->
  fire (Settle n r) w
  = ({| state := generateFailed (state w);
        session := session w; awaiting := delete n (awaiting w) |}, []).
Proof.
  intros E Hr. unfold fire, commit. rewrite E.
  destruct r as [[|] [data|]|]; try discriminate Hr; cbn [resume fst snd List.map];
    rewrite app_nil_r, effect_unchanged by reflexivity; reflexivity.
Qed.

Lemma generateSucceeded_fields data s :
  currentStep (generateSucceeded data s) = Questions
  /\ questions (generateSucceeded data s) = default [] (data_questions data)
  /\ isLoading (generateSucceeded data s) = false
  /\ error (generateSucceeded data s) = error s
  /\ currentQuestionIndex (generateSucceeded data s) = currentQuestionIndex s
  /\ showFeedback (generateSucceeded data s) = showFeedback s.
Proof. unfold generateSucceeded. repeat case_if; repeat split. Qed.

Lemma fire_Settle_generate w n data :
  awaiting w !! n = Some GenerateFetch ->
  currentStep (state w) = Input ->
  fire (Settle n (Replied true (Some data))) w
  = ({| state := setTicking false (generateSucceeded data (state w));
        session := session w; awaiting := delete n (awaiting w) |}, []).
Proof.
  intros E Hi. unfold fire, commit. rewrite E. cbn [resume fst snd List.map].
  rewrite app_nil_r. unfold effect, depsChanged.
  destruct (generateSucceeded_fields data (state w)) as (-> & _ & _ & _ & _ & _).
  rewrite Hi. reflexivity.
Qed.

Lemma fire_ClickStartMock w :
  currentStep (state w) = Questions ->
  fire ClickStartMock w
  = ({| state := setTicking true (startMockInterview (state w));
        session := session w; awaiting := awaiting w |}, []).
Proof.
  intros Hq. unfold fire, commit. rewrite Hq. cbn [stepEqb fst snd List.map].
  rewrite app_nil_r. unfold effect, depsChanged.
  cbn [currentStep startMockInterview setTimer setShowFeedback setFeedback
         setCurrentAnswer setCurrentQuestionIndex setCurrentStep showFeedback].
  rewrite Hq. reflexivity.
Qed.

(** X18.  For a visitor who is not signed in, from the input screen
    with both fields filled and no generation under way: the generate
    button sends one request to [/api/generate-questions] with the form
    and the user id "anonymous"; a successful reply stores its questions
    (none when the field is absent) and shows them; the start button
    then opens the mock interview on the first question with an empty
    answer, no feedback, timer 0 and a live interval. *)
Theorem generating_then_starting w data :
  currentStep (state w) = Input ->
  generateDisabled (state w) = false ->
  session w = None ->
  let w1 := fst (fire ClickGenerate w) in
  let w2 := fst (fire (Settle (length (awaiting w)) (Replied true (Some data))) w1) in
  let w3 := fst (fire ClickStartMock w2) in
  snd (fire ClickGenerate w)
  = [{| path := "/api/generate-questions";
        headers := [("Content-Type", "application/json")];
        body := GenerateBody (jobRole (state w)) (company (state w))
                  (difficulty (state w)) (seniority (state w))
                  (numberOfQuestions (state w)) (questionType (state w))
                  "anonymous" |}]
  /\ isLoading (state w1) = true
  /\ (currentStep (state w2) = Questions
      /\ questions (state w2) = default [] (data_questions data)
      /\ isLoading (state w2) = false
      /\ awaiting w2 = awaiting w)
  /\ (currentStep (state w3) = Mock
      /\ questions (state w3) = default [] (data_questions data)
      /\ currentQuestionIndex (state w3) = 0
      /\ currentAnswer (state w3) = ""
      /\ feedback (state w3) = ""
      /\ showFeedback (state w3) = false
      /\ timer (state w3) = 0
      /\ ticking (state w3) = true).
Proof.
  intros Hi Hd Hu. cbv zeta.
  rewrite (fire_ClickGenerate_anonymous w Hi Hd Hu). cbn [fst snd].
  split; [reflexivity|]. split; [reflexivity|].
  set (w1 := {| state := _; session := _; awaiting := _ |}).
  rewrite (fire_Settle_generate w1 (length (awaiting w)) data
             (lookup_last_awaiting _ _) Hi).
  cbn [fst]. subst w1. cbn [awaiting state session]. rewrite delete_last_awaiting.
  destruct (generateSucceeded_fields data (setError "" (setIsLoading true (state w))))
    as (Hs & Hq & Hl & _).
  split; [split; [exact Hs|]; split; [exact Hq|]; split; [exact Hl|reflexivity]|].
  set (w2 := {| state := _; session := _; awaiting := _ |}).
  rewrite (fire_ClickStartMock w2 Hs). cbn [fst].
  split; [reflexivity|]. split; [exact Hq|]. repeat split.
Qed.

(** X18 on the filled form of a visitor. *)
Lemma generating_then_starting_witness :
  currentStep (state (run fillForm (mount None))) = Input
  /\ generateDisabled (state (run fillForm (mount None))) = false
  /\ session (run fillForm (mount None)) = None
  /\ isLoading (state (fst (fire ClickGenerate (run fillForm (mount None))))) = true.
Proof.
  assert (H0 : currentStep (state (run fillForm (mount None))) = Input) by reflexivity.
  assert (H1 : generateDisabled (state (run fillForm (mount None))) = false)
    by reflexivity.
  assert (H2 : session (run fillForm (mount None)) = None) by reflexivity.
  split; [exact H0|]. split; [exact H1|]. split; [exact H2|].
  exact (proj1 (proj2 (generating_then_starting (run fillForm (mount None))
                         noQuestions H0 H1 H2))).
Defined.

Lemma fire_ClickGenerate_signedIn w u :
  currentStep (state w) = Input ->
  generateDisabled (state w) = false ->
  session w = Some u ->
  fire ClickGenerate w
  = ({| state := setError "" (setIsLoading true (state w));
        session := session w;
        awaiting := awaiting w ++ [AuthUserFetch (state w) u] |},
     [authUserRequest u]).
Proof.
  intros Hi Hd Hu. unfold fire, commit, handleGenerateQuestions.
  rewrite Hi, Hd, Hu. cbn [stepEqb negb andb].
  unfold generateDisabled in Hd.
  apply orb_false_elim in Hd as [Hd Hc]. apply orb_false_elim in Hd as [_ Hj].
  rewrite Hj, Hc. cbn [orb fst snd List.map].
  rewrite effect_unchanged by reflexivity. reflexivity.
Qed.

Lemma fire_Settle_registration_rejected w n closure u :
  awaiting w !! n = Some (AuthUserFetch closure u) ->
  fire (Settle n Failed) w
  = ({| state := generateFailed (state w);
        session := session w; awaiting := delete n (awaiting w) |}, []).
Proof.
  intros E. unfold fire, commit. rewrite E. cbn [resume fst snd List.map].
  rewrite app_nil_r, effect_unchanged by reflexivity. reflexivity.
Qed.

Lemma fire_Settle_registration w n closure u okr data :
  awaiting w !! n = Some (AuthUserFetch closure u) ->
  fire (Settle n (Replied okr data)) w
  = ({| state := state w; session := session w;
        awaiting := delete n (awaiting w) ++ [GenerateFetch] |},
     [generateRequest (Some u) closure]).
Proof.
  intros E. unfold fire, commit. rewrite E. cbn [resume fst snd List.map].
  rewrite effect_unchanged by reflexivity. reflexivity.
Qed.

Lemma generationFails_cases n user evs :
  generationFails n user evs = true ->
  (user = None /\ exists r, failed r = true /\ evs = [Settle n r])
  \/ (exists u, user = Some u
       /\ (evs = [Settle n Failed]
           \/ exists okr data r,
                failed r = true
                /\ evs = [Settle n (Replied okr data); Settle n r])).
Proof.
  unfold generationFails. intros H.
  destruct user as [u|]; destruct evs as [|ev evs]; try discriminate H;
    destruct ev; try discriminate H.
  - right. exists u. split; [reflexivity|].
    destruct r as [okr data|].
    + destruct evs as [|ev evs]; [discriminate H|].
      destruct ev; try discriminate H.
      destruct evs; [|discriminate H].
      apply andb_prop in H as [H Hr]. apply andb_prop in H as [H1 H2].
      apply Nat.eqb_eq in H1, H2. subst. right. eauto.
    + destruct evs; [|discriminate H]. apply Nat.eqb_eq in H. subst. left. reflexivity.
  - left. split; [reflexivity|].
    destruct evs; [|discriminate H].
    apply andb_prop in H as [H Hr]. apply Nat.eqb_eq in H. subst. eauto.
Qed.

(** The page after the [catch] of a generation clicked in [w]. *)
Lemma after_failed_generation w w2 :
  currentStep (state w) = Input ->
  generateDisabled (state w) = false ->
  w2 = {| state := generateFailed (setError "" (setIsLoading true (state w)));
          session := session w; awaiting := awaiting w |} ->
  error (state w2) = "Failed to generate questions. Please try again."
  /\ currentStep (state w2) = Input
  /\ isLoading (state w2) = false
  /\ questions (state w2) = questions (state w)
  /\ jobRole (state w2) = jobRole (state w)
  /\ company (state w2) = company (state w)
  /\ session w2 = session w
  /\ awaiting w2 = awaiting w
  /\ generateDisabled (state w2) = false
  /\ snd (fire ClickGenerate w2) = snd (fire ClickGenerate w)
  /\ snd (fire ClickGenerate w2) <> [].
Proof.
  intros Hi Hd ->.
  set (w2 := {| state := _; session := _; awaiting := _ |}).
  assert (Hd2 : generateDisabled (state w2) = false).
  { unfold generateDisabled in *.
    apply orb_false_elim in Hd as [Hd Hc]. apply orb_false_elim in Hd as [_ Hj].
    subst w2.
    cbn [state isLoading jobRole company generateFailed setIsLoading setError].
    rewrite Hj, Hc. reflexivity. }
  split; [reflexivity|]. split; [exact Hi|]. split; [reflexivity|].
  split; [reflexivity|]. split; [reflexivity|]. split; [reflexivity|].
  split; [reflexivity|]. split; [reflexivity|]. split; [exact Hd2|].
  destruct (session w) as [u|] eqn:Hu.
  - rewrite (fire_ClickGenerate_signedIn w2 u Hi Hd2 eq_refl),
      (fire_ClickGenerate_signedIn w u Hi Hd Hu). cbn [snd].
    split; [reflexivity|discriminate].
  - rewrite (fire_ClickGenerate_anonymous w2 Hi Hd2 eq_refl),
      (fire_ClickGenerate_anonymous w Hi Hd Hu). cbn [snd].
    split; [reflexivity|discriminate].
Qed.

(** X19.  When the generation fails, the page stays on the input
    screen with the form and the questions as they were and shows
    "Failed to generate questions. Please try again."; [isLoading] is
    cleared, no request is left in flight, the button is enabled
    again, and a second click sends what the first click sent.  The
    generation fails, for a visitor who is not signed in, when the
    reply to the generation request is anything but an [ok] response
    with a body that parses; for a signed-in user, when the
    registration call of line 183 is rejected, or when it is answered,
    with whatever response, and the generation request that follows
    gets such a failing reply. *)
Theorem failed_generation_can_be_retried w evs :
  currentStep (state w) = Input ->
  generateDisabled (state w) = false ->
  generationFails (length (awaiting w)) (session w) evs = true ->
  let w2 := run evs (fst (fire ClickGenerate w)) in
  error (state w2) = "Failed to generate questions. Please try again."
  /\ currentStep (state w2) = Input
  /\ isLoading (state w2) = false
  /\ questions (state w2) = questions (state w)
  /\ jobRole (state w2) = jobRole (state w)
  /\ company (state w2) = company (state w)
  /\ session w2 = session w
  /\ awaiting w2 = awaiting w
  /\ generateDisabled (state w2) = false
  /\ snd (fire ClickGenerate w2) = snd (fire ClickGenerate w)
  /\ snd (fire ClickGenerate w2) <> [].
Proof.
  intros Hi Hd Hf. cbv zeta.
  apply (after_failed_generation w _ Hi Hd).
  destruct (generationFails_cases _ _ _ Hf)
    as [[Hu (r & Hr & ->)]|(u & Hu & [->|(okr & data & r & Hr & ->)])];
    cbn [run fold_left].
  - rewrite (fire_ClickGenerate_anonymous w Hi Hd Hu). cbn [fst].
    set (w1 := {| state := _; session := _; awaiting := _ |}).
    rewrite (fire_Settle_generate_failed w1 (length (awaiting w)) r
               (lookup_last_awaiting _ _) Hr).
    cbn [fst]. subst w1. cbn [awaiting state session].
    rewrite delete_last_awaiting. reflexivity.
  - rewrite (fire_ClickGenerate_signedIn w u Hi Hd Hu). cbn [fst].
    set (w1 := {| state := _; session := _; awaiting := _ |}).
    rewrite (fire_Settle_registration_rejected w1 (length (awaiting w)) (state w) u
               (lookup_last_awaiting _ _)).
    cbn [fst]. subst w1. cbn [awaiting state session].
    rewrite delete_last_awaiting. reflexivity.
  - rewrite (fire_ClickGenerate_signedIn w u Hi Hd Hu). cbn [fst].
    set (w1 := {| state := _; session := _; awaiting := _ |}).
    rewrite (fire_Settle_registration w1 (length (awaiting w)) (state w) u okr data
               (lookup_last_awaiting _ _)).
    cbn [fst]. subst w1. cbn [awaiting state session].
    rewrite delete_last_awaiting.
    set (w1 := {| state := _; session := _; awaiting := _ |}).
    rewrite (fire_Settle_generate_failed w1 (length (awaiting w)) r
               (lookup_last_awaiting _ _) Hr).
    cbn [fst]. subst w1. cbn [awaiting state session].
    rewrite delete_last_awaiting. reflexivity.
Qed.

(** X19 for a signed-in user on the filled form: the registration is
    answered, and the backend then answers the generation request with
    a 500. *)
Lemma failed_generation_witness :
  currentStep (state signedIn) = Input
  /\ generateDisabled (state signedIn) = false
  /\ generationFails (length (awaiting signedIn)) (session signedIn)
       [Settle 0 (Replied true None); Settle 0 (Replied false None)] = true
  /\ error (state (run [Settle 0 (Replied true None); Settle 0 (Replied false None)]
                     (fst (fire ClickGenerate signedIn))))
     = "Failed to generate questions. Please try again."
  /\ isLoading (state (run [Settle 0 (Replied true None); Settle 0 (Replied false None)]
                         (fst (fire ClickGenerate signedIn)))) = false
  /\ snd (fire ClickGenerate
            (run [Settle 0 (Replied true None); Settle 0 (Replied false None)]
               (fst (fire ClickGenerate signedIn))))
     = [authUserRequest someone].
Proof.
  assert (H0 : currentStep (state signedIn) = Input) by reflexivity.
  assert (H1 : generateDisabled (state signedIn) = false) by reflexivity.
  assert (H2 : generationFails (length (awaiting signedIn)) (session signedIn)
                 [Settle 0 (Replied true None); Settle 0 (Replied false None)] = true)
    by reflexivity.
  split; [exact H0|]. split; [exact H1|]. split; [exact H2|].
  pose proof (failed_generation_can_be_retried signedIn
                [Settle 0 (Replied true None); Settle 0 (Replied false None)]
                H0 H1 H2) as T.
  cbv zeta in T.
  split; [exact (proj1 T)|].
  split; [exact (proj1 (proj2 (proj2 T)))|].
  rewrite (proj1 (proj2 (proj2 (proj2 (proj2 (proj2 (proj2 (proj2 (proj2 (proj2 T)))))))))).
  reflexivity.
Defined.

(** *** The follow-up *)

Lemma fire_ClickFollowUp w :
  currentStep (state w) = Mock ->
  showFeedback (state w) = true ->
  isFetchingFollowUp (state w) = false ->
  fire ClickFollowUp w
  = ({| state := setFollowUpQuestion "" (setIsFetchingFollowUp true (state w));
        session := session w; awaiting := awaiting w ++ [FollowUpFetch] |},
     [followUpRequest (state w)]).
Proof.
  intros Hm Hf Hs. unfold fire, commit, requestFollowUp.
  rewrite Hm, Hf, Hs. cbn [stepEqb negb andb fst snd List.map].
  rewrite effect_unchanged by reflexivity. reflexivity.
Qed.

Lemma fire_Settle_followUp w n r :
  awaiting w !! n = Some FollowUpFetch ->
  fire (Settle n r) w
  = ({| state := setIsFetchingFollowUp false
                   (setFollowUpQuestion (followUpText r) (state w));
        session := session w; awaiting := delete n (awaiting w) |}, []).
Proof.
  intros E. unfold fire, commit. rewrite E.
  destruct r as [[|] [data|]|]; cbn [resume fst snd List.map followUpText];
    rewrite app_nil_r, effect_unchanged by reflexivity; reflexivity.
Qed.

(** X20.  While the feedback shows and no follow-up is being fetched,
    the follow-up button sends one request with the current question
    and the answer and clears the follow-up text.  When the call
    settles, the text is the reply's follow-up question, or the apology
    "Sorry, I couldn't generate a follow-up. Please proceed to the next
    question." when the reply fails; the error, the step and the
    feedback are as they were, and the button sends the same request
    again. *)
Theorem follow_up_never_blocks w r :
  currentStep (state w) = Mock ->
  showFeedback (state w) = true ->
  isFetchingFollowUp (state w) = false ->
  let w1 := fst (fire ClickFollowUp w) in
  let w2 := fst (fire (Settle (length (awaiting w)) r) w1) in
  snd (fire ClickFollowUp w)
  = [{| path := "/api/generate-follow-up";
        headers := [("Content-Type", "application/json")];
        body := FollowUpBody (currentQuestion (state w)) (currentAnswer (state w)) |}]
  /\ followUpQuestion (state w1) = ""
  /\ followUpQuestion (state w2)
     = (if failed r
        then "Sorry, I couldn't generate a follow-up. Please proceed to the next question."
        else followUpText r)
  /\ error (state w2) = error (state w)
  /\ currentStep (state w2) = Mock
  /\ feedback (state w2) = feedback (state w)
  /\ showFeedback (state w2) = true
  /\ isFetchingFollowUp (state w2) = false
  /\ awaiting w2 = awaiting w
  /\ snd (fire ClickFollowUp w2) = snd (fire ClickFollowUp w).
Proof.
  intros Hm Hf Hs. cbv zeta.
  rewrite (fire_ClickFollowUp w Hm Hf Hs). cbn [fst snd].
  split; [reflexivity|]. split; [reflexivity|].
  set (w1 := {| state := _; session := _; awaiting := _ |}).
  rewrite (fire_Settle_followUp w1 (length (awaiting w)) r (lookup_last_awaiting _ _)).
  cbn [fst]. subst w1. cbn [awaiting state session]. rewrite delete_last_awaiting.
  set (w2 := {| state := _; session := _; awaiting := _ |}).
  assert (Hs2 : isFetchingFollowUp (state w2) = false) by reflexivity.
  rewrite (fire_ClickFollowUp w2 Hm Hf Hs2). cbn [snd].
  split; [destruct r as [[|] [data|]|]; reflexivity|].
  split; [reflexivity|]. split; [exact Hm|]. split; [reflexivity|].
  split; [exact Hf|]. repeat split.
Qed.

(** X20 after the first answer, the follow-up call failing. *)
Lemma follow_up_witness :
  currentStep (state feedbackShown) = Mock
  /\ showFeedback (state feedbackShown) = true
  /\ isFetchingFollowUp (state feedbackShown) = false
  /\ followUpQuestion
       (state (fst (fire (Settle (length (awaiting feedbackShown)) Failed)
                      (fst (fire ClickFollowUp feedbackShown)))))
     = "Sorry, I couldn't generate a follow-up. Please proceed to the next question.".
Proof.
  assert (H0 : currentStep (state feedbackShown) = Mock) by reflexivity.
  assert (H1 : showFeedback (state feedbackShown) = true) by reflexivity.
  assert (H2 : isFetchingFollowUp (state feedbackShown) = false) by reflexivity.
  split; [exact H0|]. split; [exact H1|]. split; [exact H2|].
  exact (proj1 (proj2 (proj2 (follow_up_never_blocks feedbackShown Failed H0 H1 H2)))).
Defined.

(** *** A whole interview *)

Lemma run_answerRound w answer data :
  run (answerRound answer data) w
  = fst (fire ClickNext
           (fst (fire (Settle 0 (Replied true (Some data)))
                   (fst (fire ClickSubmit (fst (fire (TypeAnswer answer) w))))))).
Proof. reflexivity. Qed.

Lemma run_app evs1 evs2 w : run (evs1 ++ evs2) w = run evs2 (run evs1 w).
Proof. unfold run. apply fold_left_app. Qed.

Lemma answerRound_next qs i w answer data :
  openQuestion qs i w ->
  Js.blank answer = false ->
  (i + 1 < Z.of_nat (length qs) ->
   openQuestion qs (i + 1) (run (answerRound answer data) w)
   /\ timer (state (run (answerRound answer data) w)) = 0
   /\ ticking (state (run (answerRound answer data) w)) = true)
  /\ (Z.of_nat (length qs) <= i + 1 ->
      currentStep (state (run (answerRound answer data) w)) = Complete
      /\ ticking (state (run (answerRound answer data) w)) = false).
Proof.
  intros (Hm & Hf & Hs & Ha & Hq & Hi) Hb. rewrite run_answerRound.
  rewrite (fire_TypeAnswer w answer Hm). cbn [fst snd].
  set (w1 := {| state := setCurrentAnswer answer (state w);
                session := session w; awaiting := awaiting w |}).
  rewrite (fire_ClickSubmit w1 Hm Hf Hs Hb). cbn [fst snd].
  set (w2 := {| state := _; session := _; awaiting := _ |}).
  assert (E2 : awaiting w2 !! 0%nat = Some FeedbackFetch)
    by (subst w2 w1; cbn [awaiting]; rewrite Ha; reflexivity).
  rewrite (fire_Settle_feedback w2 0 data E2 Hf). cbn [fst].
  set (w3 := {| state := _; session := _; awaiting := _ |}).
  assert (Hm3 : currentStep (state w3) = Mock) by exact Hm.
  assert (Hf3 : showFeedback (state w3) = true) by reflexivity.
  assert (Ha3 : awaiting w3 = [])
    by (subst w3 w2 w1; cbn [awaiting]; rewrite Ha; reflexivity).
  assert (Hq3 : questions (state w3) = qs) by exact Hq.
  assert (Hi3 : currentQuestionIndex (state w3) = i) by exact Hi.
  split; intros Hn.
  - rewrite (fire_ClickNext_advance w3 Hm3 Hf3) by (rewrite Hq3, Hi3; exact Hn).
    cbn [fst]. split; [|split; reflexivity].
    split; [exact Hm|]. split; [reflexivity|]. split; [reflexivity|].
    split; [exact Ha3|]. split; [exact Hq|].
    cbn [state currentQuestionIndex setTicking setTimer setError setFollowUpQuestion
           setShowFeedback setFeedback setCurrentAnswer setCurrentQuestionIndex].
    rewrite Hi3. reflexivity.
  - rewrite (fire_ClickNext_complete w3 Hm3 Hf3) by (rewrite Hq3, Hi3; exact Hn).
    cbn [fst]. split; reflexivity.
Qed.

Lemma answerRounds_open qs answer data k : forall i w,
  openQuestion qs i w ->
  Js.blank answer = false ->
  i + Z.of_nat k < Z.of_nat (length qs) ->
  openQuestion qs (i + Z.of_nat k) (run (answerRounds k answer data) w).
Proof.
  induction k as [|k IH]; intros i w Ho Hb Hlt.
  - rewrite Z.add_0_r. exact Ho.
  - cbn [answerRounds]. rewrite run_app.
    destruct (answerRound_next qs i w answer data Ho Hb) as [Hnext _].
    destruct Hnext as (Ho' & _); [lia|].
    replace (i + Z.of_nat (S k)) with (i + 1 + Z.of_nat k) by lia.
    apply IH; [exact Ho'|exact Hb|lia].
Qed.

(** X21.  An interview of [n] questions, each answered with an answer
    that is not blank and a feedback request that succeeds, with no
    other request in flight: after [k < n] rounds of answer, submit,
    feedback and next, the page is on question [k] of the mock
    interview, unanswered; after [n] rounds it is on the complete
    screen, with no interval live. *)
Theorem interview_ends_after_n_rounds qs w answer data :
  openQuestion qs 0 w ->
  Js.blank answer = false ->
  qs <> [] ->
  (forall k, (k < length qs)%nat ->
     openQuestion qs (Z.of_nat k) (run (answerRounds k answer data) w))
  /\ currentStep (state (run (answerRounds (length qs) answer data) w)) = Complete
  /\ ticking (state (run (answerRounds (length qs) answer data) w)) = false.
Proof.
  intros Ho Hb Hne.
  assert (Hopen : forall k, (k < length qs)%nat ->
            openQuestion qs (Z.of_nat k) (run (answerRounds k answer data) w)).
  { intros k Hk. apply (answerRounds_open qs answer data k 0 w Ho Hb). lia. }
  split; [exact Hopen|].
  destruct (length qs) as [|n] eqn:En; [destruct qs; [congruence|discriminate]|].
  assert (E : answerRounds (S n) answer data
              = answerRounds n answer data ++ answerRound answer data).
  { clear. induction n as [|n IH]; [reflexivity|].
    change (answerRounds (S (S n)) answer data)
      with (answerRound answer data ++ answerRounds (S n) answer data).
    rewrite IH at 1. rewrite app_assoc. reflexivity. }
  rewrite E, run_app.
  destruct (answerRound_next qs (Z.of_nat n) (run (answerRounds n answer data) w)
              answer data (Hopen n (Nat.lt_succ_diag_r n)) Hb) as [_ Hlast].
  apply Hlast. rewrite En. lia.
Qed.

(** X21 on an interview of two questions. *)
Lemma interview_witness :
  openQuestion [q1; q2] 0 firstQuestion
  /\ Js.blank "I led a project" = false
  /\ [q1; q2] <> []
  /\ currentStep
       (state (run (answerRounds 2 "I led a project" emptyFeedback) firstQuestion))
     = Complete.
Proof.
  assert (H0 : openQuestion [q1; q2] 0 firstQuestion) by (repeat split).
  assert (H1 : Js.blank "I led a project" = false) by reflexivity.
  assert (H2 : [q1; q2] <> []) by discriminate.
  split; [exact H0|]. split; [exact H1|]. split; [exact H2|].
  exact (proj1 (proj2 (interview_ends_after_n_rounds [q1; q2] firstQuestion
                         "I led a project" emptyFeedback H0 H1 H2))).
Defined.

(** *** The form *)

(** X22.  [handleGenerateQuestions] on a form whose job role or company
    is empty or only white space sets "Please fill both fields" and does
    nothing else: no request, [isLoading] not set, every other state
    variable as it was.  On the page the button is disabled then, and a
    click changes nothing. *)
Theorem blank_form_is_rejected user s :
  Js.blank (jobRole s) = true \/ Js.blank (company s) = true ->
  handleGenerateQuestions user s = (setError "Please fill both fields" s, [])
  /\ isLoading (fst (handleGenerateQuestions user s)) = isLoading s
  /\ currentStep (fst (handleGenerateQuestions user s)) = currentStep s
  /\ forall w, state w = s -> fire ClickGenerate w = (w, []).
Proof.
  intros H.
  assert (E : Js.blank (jobRole s) || Js.blank (company s) = true)
    by (destruct H as [-> | ->]; [reflexivity|apply orb_true_r]).
  unfold handleGenerateQuestions. rewrite E. repeat split.
  intros w <-. unfold fire, generateDisabled.
  rewrite <- orb_assoc, E, orb_true_r. cbn [negb]. rewrite andb_false_r. reflexivity.
Qed.

(** X22 on the form as the page mounts it. *)
Lemma blank_form_witness :
  (Js.blank (jobRole initial) = true \/ Js.blank (company initial) = true)
  /\ snd (handleGenerateQuestions None initial) = []
  /\ error (fst (handleGenerateQuestions None initial)) = "Please fill both fields".
Proof.
  assert (H : Js.blank (jobRole initial) = true \/ Js.blank (company initial) = true)
    by (left; reflexivity).
  split; [exact H|].
  rewrite (proj1 (blank_form_is_rejected None initial H)). split; reflexivity.
Defined.

End PageSessionFacts.

(** ** The clock of the mock interview *)

Module ClockFacts.
Import PageSession.

Lemma below_100_minutes : forallb showsClockFace (seq 0 (Z.to_nat 6000)) = true.
Proof. vm_compute. reflexivity. Qed.

Lemma formatTime_clockFace seconds :
  0 <= seconds < 6000 -> formatTime seconds = clockFace seconds.
Proof.
  intros H. pose proof below_100_minutes as Hall. rewrite forallb_forall in Hall.
  specialize (Hall (Z.to_nat seconds)).
  unfold showsClockFace in Hall. rewrite Z2Nat.id in Hall by lia.
  apply String.eqb_eq, Hall, in_seq. lia.
Qed.

(** X16.  For a time below 100 minutes, [formatTime] shows two digits
    of minutes, a colon and two digits of seconds: five characters. *)
Theorem formatTime_shows_minutes_and_seconds seconds :
  0 <= seconds < 6000 ->
  formatTime seconds = clockFace seconds
  /\ String.length (formatTime seconds) = 5%nat.
Proof.
  intros H. pose proof (formatTime_clockFace seconds H) as E.
  split; [exact E|]. rewrite E. reflexivity.
Qed.

(** X16 at 75 seconds. *)
Lemma formatTime_witness : 0 <= 75 < 6000 /\ formatTime 75 = "01:15".
Proof.
  assert (H : 0 <= 75 < 6000) by lia.
  split; [exact H|]. exact (proj1 (formatTime_shows_minutes_and_seconds 75 H)).
Defined.

Lemma digit_inj a b : 0 <= a < 10 -> 0 <= b < 10 -> digit a = digit b -> a = b.
Proof.
  intros Ha Hb E. unfold digit in E.
  apply (f_equal nat_of_ascii) in E.
  rewrite !nat_ascii_embedding in E by lia. lia.
Qed.

(** X17.  Below 100 minutes, two different times never show the same
    text. *)
Theorem formatTime_tells_times_apart a b :
  0 <= a < 6000 -> 0 <= b < 6000 -> formatTime a = formatTime b -> a = b.
Proof.
  intros Ha Hb E.
  rewrite (formatTime_clockFace a Ha), (formatTime_clockFace b Hb) in E.
  unfold clockFace in E. injection E as E1 E2 E3 E4.
  apply digit_inj in E1; [|clear -Ha Hb; Z.div_mod_to_equations; lia..].
  apply digit_inj in E2; [|clear -Ha Hb; Z.div_mod_to_equations; lia..].
  apply digit_inj in E3; [|clear -Ha Hb; Z.div_mod_to_equations; lia..].
  apply digit_inj in E4; [|clear -Ha Hb; Z.div_mod_to_equations; lia..].
  Z.div_mod_to_equations. lia.
Qed.

(** X17 at two times. *)
Lemma formatTime_apart_witness :
  0 <= 59 < 6000 /\ 0 <= 60 < 6000 /\ formatTime 59 <> formatTime 60.
Proof.
  assert (Ha : 0 <= 59 < 6000) by lia. assert (Hb : 0 <= 60 < 6000) by lia.
  split; [exact Ha|]. split; [exact Hb|].
  intros E. pose proof (formatTime_tells_times_apart 59 60 Ha Hb E) as H.
  discriminate H.
Defined.

End ClockFacts.

(** ** The saved question sets *)

Module BookmarkManagerFacts.
Import BookmarkManager BookmarkInputs.

(** X23.  After a deletion that the server confirms, no set with the
    deleted id is left, the sets with other ids are all still there in
    the order they had, and a list without that id is not changed. *)
Theorem deleted_set_is_gone setId s :
  let after := bookmarks (fst (deleteBookmarkDone setId (Answered true tt) s)) in
  (forall b, In b after <-> In b (bookmarks s) /\ id b <> setId)
  /\ sublist after (bookmarks s)
  /\ ((forall b, In b (bookmarks s) -> id b <> setId) -> after = bookmarks s).
Proof.
  cbn [deleteBookmarkDone fst bookmarks setBookmarks]. unfold removeSet.
  split; [|split].
  - intros b. rewrite filter_In, negb_true_iff, Z.eqb_neq. reflexivity.
  - induction (bookmarks s) as [|b l IH]; [constructor|].
    cbn [List.filter]. destruct (negb (id b =? setId));
      [apply sublist_skip, IH|apply sublist_cons, IH].
  - intros H. induction (bookmarks s) as [|b l IH]; [reflexivity|].
    cbn [List.filter].
    assert (Hb : negb (id b =? setId) = true)
      by (apply negb_true_iff, Z.eqb_neq, H; left; reflexivity).
    rewrite Hb, IH; [reflexivity|]. intros b' Hb'. apply H. right. exact Hb'.
Qed.

Lemma markFavorite_lookup setId v prev (i : nat) :
  markFavorite setId v prev !! i
  = (fun b => if id b =? setId then withFavorite v b else b) <$> prev !! i.
Proof.
  unfold markFavorite. revert i.
  induction prev as [|b l IH]; intros [|i]; cbn; auto.
Qed.

(** X24.  After a change of favourite that the server confirms, the
    list has the same sets at the same places: every set with the given
    id has the new flag and all its other fields as before, and every
    other set is untouched. *)
Theorem favorite_changes_one_flag setId v s :
  let after := bookmarks (fst (toggleFavoriteDone setId (Answered true v) s)) in
  length after = length (bookmarks s)
  /\ List.map id after = List.map id (bookmarks s)
  /\ forall (i : nat) b,
       bookmarks s !! i = Some b ->
       exists b',
         after !! i = Some b'
         /\ title b' = title b /\ description b' = description b
         /\ questions b' = questions b /\ tags b' = tags b
         /\ practiceCount b' = practiceCount b /\ createdAt b' = createdAt b
         /\ isFavorite b' = (if id b =? setId then v else isFavorite b).
Proof.
  cbn [toggleFavoriteDone fst bookmarks setBookmarks].
  split; [apply List.length_map|]. split.
  - unfold markFavorite. rewrite List.map_map. apply List.map_ext.
    intros b. destruct (id b =? setId); reflexivity.
  - intros i b E. rewrite markFavorite_lookup, E. cbn.
    eexists. split; [reflexivity|].
    destruct (id b =? setId); repeat split.
Qed.

Lemma markFavorite_removeSet a v b l :
  markFavorite a v (removeSet b l) = removeSet b (markFavorite a v l).
Proof.
  unfold markFavorite, removeSet.
  induction l as [|x l IH]; [reflexivity|]. cbn [List.filter List.map].
  replace (id (if id x =? a then withFavorite v x else x)) with (id x)
    by (destruct (id x =? a); reflexivity).
  destruct (negb (id x =? b)); cbn [List.map]; rewrite IH; reflexivity.
Qed.

Lemma removeSet_removeSet a b l :
  removeSet a (removeSet b l) = removeSet b (removeSet a l).
Proof.
  unfold removeSet. induction l as [|x l IH]; [reflexivity|]. cbn [List.filter].
  destruct (negb (id x =? a)) eqn:Ea, (negb (id x =? b)) eqn:Eb;
    cbn [List.filter]; rewrite ?Ea, ?Eb, IH; reflexivity.
Qed.

Lemma markFavorite_markFavorite a v b v' l :
  a <> b ->
  markFavorite a v (markFavorite b v' l) = markFavorite b v' (markFavorite a v l).
Proof.
  intros Hne. unfold markFavorite. rewrite !List.map_map. apply List.map_ext.
  intros x. destruct (Z.eqb_spec (id x) b) as [Eb|Eb], (Z.eqb_spec (id x) a) as [Ea|Ea];
    cbn [id withFavorite]; rewrite ?(proj2 (Z.eqb_eq _ _) Eb), ?(proj2 (Z.eqb_eq _ _) Ea),
      ?(proj2 (Z.eqb_neq _ _) Eb), ?(proj2 (Z.eqb_neq _ _) Ea);
    try reflexivity; congruence.
Qed.

(** X25.  Two replies, of which one is a deletion or which are about
    different sets, leave the same list, flags and tags in whichever
    order they arrive. *)
Theorem replies_commute d1 d2 s :
  independent d1 d2 ->
  fst (settle d2 (fst (settle d1 s))) = fst (settle d1 (fst (settle d2 s))).
Proof.
  intros H.
  destruct d1 as [a [[|] v|]|a [[|] []|]], d2 as [b [[|] v'|]|b [[|] []|]];
    cbn [settle toggleFavoriteDone deleteBookmarkDone fst setBookmarks bookmarks
           loading selectedTag allTags];
    try reflexivity.
  - cbn [independent] in H. rewrite (markFavorite_markFavorite b v' a v) by congruence.
    reflexivity.
  - rewrite markFavorite_removeSet. reflexivity.
  - rewrite markFavorite_removeSet. reflexivity.
  - rewrite removeSet_removeSet. reflexivity.
Qed.

(** X25 on a favourite and a deletion of two sets. *)
Lemma replies_commute_witness :
  independent (ToggleDone 1 (Answered true true)) (DeleteDone 2 (Answered true tt))
  /\ bookmarks (fst (settle (DeleteDone 2 (Answered true tt))
                       (fst (settle (ToggleDone 1 (Answered true true)) loaded))))
     = [withFavorite true set1].
Proof.
  assert (H : independent (ToggleDone 1 (Answered true true))
                (DeleteDone 2 (Answered true tt))) by exact I.
  split; [exact H|].
  rewrite (replies_commute _ _ loaded H). reflexivity.
Defined.

End BookmarkManagerFacts.
